(** * Authorization-code grant: a shallow embedding of
      [lib/grant-types/authorization-code-grant-type.ts]

    The grant type is a straight line of calls to collaborators (the storage
    model, the scope policy, the token generators and the expiry policy
    inherited from the abstract grant type, the clock) with guards that throw
    between them.  It is embedded as a state-and-exception monad over the
    collaborators' world, instrumented with a log of the collaborator calls,
    so that what is called, with what, and in what order can be stated on the
    log.

    Values are modelled as the code uses them: a property of the request body
    or of a record is a string or [undefined] ([option string]), with
    JavaScript's truthiness; [expiresAt] is any value, a Date or not; times
    are integer milliseconds; the object handed to each guard is the one the
    store returned. *)

From Stdlib Require Import ZArith List String Ascii Bool Lia.
From stdpp Require Import gmap strings.

Import ListNotations.

(** ** Node's [crypto.createHash('sha256')]

    SHA-256 (FIPS 180-4) over a byte string.  32-bit words are [Z]s kept in
    range by masking. *)
Module Crypto.
Local Open Scope Z_scope.

Definition mask32 : Z := 0xFFFFFFFF.
Definition add32 (x y : Z) : Z := Z.land (x + y) mask32.
Definition rotr (n x : Z) : Z :=
  Z.lor (Z.shiftr x n) (Z.land (Z.shiftl x (32 - n)) mask32).
Definition Ch (x y z : Z) : Z :=
  Z.lxor (Z.land x y) (Z.land (Z.lxor x mask32) z).
Definition Maj (x y z : Z) : Z :=
  Z.lxor (Z.lxor (Z.land x y) (Z.land x z)) (Z.land y z).
Definition bigSigma0 (x : Z) : Z :=
  Z.lxor (Z.lxor (rotr 2 x) (rotr 13 x)) (rotr 22 x).
Definition bigSigma1 (x : Z) : Z :=
  Z.lxor (Z.lxor (rotr 6 x) (rotr 11 x)) (rotr 25 x).
Definition smallSigma0 (x : Z) : Z :=
  Z.lxor (Z.lxor (rotr 7 x) (rotr 18 x)) (Z.shiftr x 3).
Definition smallSigma1 (x : Z) : Z :=
  Z.lxor (Z.lxor (rotr 17 x) (rotr 19 x)) (Z.shiftr x 10).

(** The constants are derived as the standard defines them: the first 32
    bits of the fractional parts of the cube roots (for [K]) and of the square
    roots (for [H0]) of the first primes. *)
Definition is_prime (n : nat) : bool :=
  forallb (fun d => negb (Nat.eqb (Nat.modulo n d) 0)) (seq 2 (n - 2)).

Definition primes (count : nat) : list Z :=
  map Z.of_nat (firstn count (filter is_prime (seq 2 310))).

(** The integer cube root of a number below [2 ^ 108], bit by bit. *)
Definition cube_root (n : Z) : Z :=
  fold_left
    (fun r b =>
       let r' := r + Z.shiftl 1 (Z.of_nat b) in
       if r' * r' * r' <=? n then r' else r)
    (rev (seq 0 36)) 0.

Definition K : list Z :=
  Eval vm_compute in
    map (fun p => Z.land (cube_root (Z.shiftl p 96)) mask32) (primes 64).

Definition H0 : list Z :=
  Eval vm_compute in
    map (fun p => Z.land (Z.sqrt (Z.shiftl p 64)) mask32) (primes 8).

(** Big-endian bytes of a word and back. *)
Definition be_bytes (n : nat) (x : Z) : list Z :=
  map (fun i => Z.land (Z.shiftr x (8 * Z.of_nat i)) 0xFF) (rev (seq 0 n)).

Definition word_of_bytes (bs : list Z) : Z :=
  fold_left (fun acc b => Z.lor (Z.shiftl acc 8) b) bs 0.

(** Padding: a 1 bit, zeros up to 56 mod 64, the bit length on 64 bits. *)
Definition pad (msg : list Z) : list Z :=
  let len := Z.of_nat (length msg) in
  let zeros := Z.to_nat ((55 - len) mod 64) in
  msg ++ [0x80] ++ repeat 0 zeros ++ be_bytes 8 (8 * len).

Fixpoint chunks (fuel n : nat) (l : list Z) : list (list Z) :=
  match fuel, l with
  | O, _ | _, [] => []
  | S fuel', _ => firstn n l :: chunks fuel' n (skipn n l)
  end.

Fixpoint schedule (n : nat) (w : list Z) : list Z :=
  match n with
  | O => w
  | S n' =>
      let t := length w in
      let at_ (k : nat) := nth (t - k)%nat w 0 in
      schedule n'
        (w ++ [add32 (add32 (smallSigma1 (at_ 2%nat)) (at_ 7%nat))
                     (add32 (smallSigma0 (at_ 15%nat)) (at_ 16%nat))])
  end.

Record regs := Regs { ra : Z; rb : Z; rc : Z; rd : Z;
                      re : Z; rf : Z; rg : Z; rh : Z }.

Definition round (r : regs) (kw : Z * Z) : regs :=
  let t1 := add32 (add32 (add32 (rh r) (bigSigma1 (re r)))
                         (add32 (Ch (re r) (rf r) (rg r)) (fst kw))) (snd kw) in
  let t2 := add32 (bigSigma0 (ra r)) (Maj (ra r) (rb r) (rc r)) in
  Regs (add32 t1 t2) (ra r) (rb r) (rc r) (add32 (rd r) t1) (re r) (rf r) (rg r).

Definition regs_of (h : list Z) : regs :=
  Regs (nth 0 h 0) (nth 1 h 0) (nth 2 h 0) (nth 3 h 0)
       (nth 4 h 0) (nth 5 h 0) (nth 6 h 0) (nth 7 h 0).

Definition list_of (r : regs) : list Z :=
  [ra r; rb r; rc r; rd r; re r; rf r; rg r; rh r].

Definition compress (h : list Z) (block : list Z) : list Z :=
  let w := schedule 48 (map word_of_bytes (chunks 16 4 block)) in
  let r := fold_left round (combine K w) (regs_of h) in
  map (fun p => add32 (fst p) (snd p)) (combine h (list_of r)).

Definition sha256_bytes (msg : list Z) : list Z :=
  let p := pad msg in
  let h := fold_left compress (chunks (length p) 64 p) H0 in
  flat_map (be_bytes 4) h.

(** [update(s)] with a string argument hashes the string's UTF-8 bytes; a
    [string] here is that byte sequence. *)
Definition bytes_of_string (s : string) : list Z :=
  map (fun c => Z.of_nat (nat_of_ascii c)) (list_ascii_of_string s).

Definition sha256 (s : string) : list Z := sha256_bytes (bytes_of_string s).

Definition hex_digit (d : Z) : ascii :=
  nth (Z.to_nat d) (list_ascii_of_string "0123456789abcdef") "0"%char.

Definition hex (bs : list Z) : string :=
  string_of_list_ascii
    (flat_map (fun b => [hex_digit (Z.shiftr b 4); hex_digit (Z.land b 15)]) bs).

End Crypto.

(** ** [utils/string-util] *)
Module StringUtil.
Local Open Scope Z_scope.

Definition alphabet : string :=
  "ABCDEFGHIJKLMNOPQRSTUVWXYZabcdefghijklmnopqrstuvwxyz0123456789-_".

Definition sextet (n : Z) : ascii :=
  nth (Z.to_nat n) (list_ascii_of_string alphabet) "A"%char.

Fixpoint encode (bs : list Z) : list ascii :=
  match bs with
  | [] => []
  | [a] =>
      [sextet (Z.shiftr a 2); sextet (Z.shiftl (Z.land a 3) 4)]
  | [a; b] =>
      [sextet (Z.shiftr a 2);
       sextet (Z.lor (Z.shiftl (Z.land a 3) 4) (Z.shiftr b 4));
       sextet (Z.shiftl (Z.land b 15) 2)]
  | a :: b :: c :: rest =>
      sextet (Z.shiftr a 2)
      :: sextet (Z.lor (Z.shiftl (Z.land a 3) 4) (Z.shiftr b 4))
      :: sextet (Z.lor (Z.shiftl (Z.land b 15) 2) (Z.shiftr c 6))
      :: sextet (Z.land c 63)
      :: encode rest
  end.

(** Modelled from the spec: [stringUtil.base64URLEncode], whose file is not
    among the sources: base64 with the URL-safe alphabet and no padding. *)
Definition base64URLEncode (buffer : list Z) : string :=
  string_of_list_ascii (encode buffer).

End StringUtil.

(** ** JavaScript values as the grant type uses them *)

(** A property that holds a string or is [undefined]. *)
Definition truthy (v : option string) : bool :=
  match v with
  | Some s => negb (String.eqb s "")
  | None => false
  end.

(** The string of a truthy value. *)
Definition truthy_string (v : option string) : option string :=
  match v with
  | Some s => if String.eqb s "" then None else Some s
  | None => None
  end.

(** [a || b] *)
Definition js_or (a b : option string) : option string :=
  if truthy a then a else b.

(** [a !== b] on such values. *)
Definition strict_ne (a b : option string) : bool :=
  negb (bool_decide (a = b)).

(** [case lit:] of a [switch (v)]. *)
Definition case_eq_lit (v : option string) (lit : string) : bool :=
  bool_decide (v = Some lit).

(** ** [errors] *)
Inductive Error : Type :=
| InvalidArgumentError (message : string)
| InvalidGrantError (message : string)
| InvalidRequestError (message : string)
| ServerError (message : string)
| TypeError (message : string)
| CollaboratorError (reason : string).

Inductive Result (A : Type) : Type :=
| Ok (a : A)
| Throw (e : Error).
Arguments Ok {A} a.
Arguments Throw {A} e.

(** What a collaborator answers: a value, or a failure of its own, which is
    a rejected promise or a throw when the call is awaited, and a throw when
    it is not.  Such a failure is kept apart, as [CollaboratorError], from the
    errors that the grant type constructs itself. *)
Inductive Reply (A : Type) : Type :=
| Resolved (a : A)
| Rejected (reason : string).
Arguments Resolved {A} a.
Arguments Rejected {A} reason.

Definition settle {A} (r : Reply A) : Result A :=
  match r with
  | Resolved a => Ok a
  | Rejected reason => Throw (CollaboratorError reason)
  end.

(** ** [interfaces] and [request] *)
Record Client := { id : string }.
Record User := { username : string }.

(** [expiresAt]: a non-Date value, a Date holding NaN, or a Date holding a
    time value in milliseconds. *)
Inductive ExpiresAt : Type :=
| NotADate
| InvalidDate
| DateAt (time : Z).

Record AuthorizationCode := {
  authorizationCode : string;
  expiresAt : ExpiresAt;
  redirectUri : option string;
  scope : string;
  client : option Client;
  user : option User;
  codeChallenge : option string;
  codeChallengeMethod : option string;
}.

(** What an expiry getter hands back, and what the token then carries: a
    time in milliseconds or, since the getters are called without [await], a
    promise, kept here with the way it settles. *)
Inductive Stamp : Type :=
| StampAt (time : Z)
| StampPromise (settles : Reply Z).
Coercion StampAt : Z >-> Stamp.
Bind Scope Z_scope with Stamp.

Module Token.
Record t := mk {
  accessToken : string;
  authorizationCode : string;
  accessTokenExpiresAt : Stamp;
  refreshToken : string;
  refreshTokenExpiresAt : Stamp;
  scope : string;
}.
End Token.
Abbreviation Token := Token.t.

Record Request := {
  body : gmap string string;
  query : gmap string string;
}.

Definition instanceof_Date (e : ExpiresAt) : bool :=
  match e with
  | NotADate => false
  | _ => true
  end.

(** [getTime()]: [None] is NaN. *)
Definition getTime (e : ExpiresAt) : option Z :=
  match e with
  | DateAt t => Some t
  | _ => None
  end.

(** [a < b] where [a] may be NaN. *)
Definition js_lt (a : option Z) (b : Z) : bool :=
  match a with
  | Some x => Z.ltb x b
  | None => false
  end.

(** ** The log of collaborator calls: arguments and outcome of each. *)
Inductive Event : Type :=
| EvGetAuthorizationCode (code : string) (res : Reply (option AuthorizationCode))
| EvRevokeAuthorizationCode (code : AuthorizationCode) (res : Reply bool)
| EvValidateScope (user : option User) (client : Client) (scope : string)
    (res : Reply string)
| EvGenerateAccessToken (client : Client) (user : option User) (scope : string)
    (res : Reply string)
| EvGenerateRefreshToken (client : Client) (user : option User)
    (scope : string) (res : Reply string)
| EvGetAccessTokenExpiresAt (res : Reply Stamp)
| EvGetRefreshTokenExpiresAt (res : Reply Stamp)
| EvSaveToken (token : Token) (client : Client) (user : option User)
    (res : Reply Token).

(** Events that issue or persist token material. *)
Definition issues_token (ev : Event) : bool :=
  match ev with
  | EvGenerateAccessToken _ _ _ _
  | EvGenerateRefreshToken _ _ _ _
  | EvSaveToken _ _ _ _ => true
  | _ => false
  end.

Definition is_Some_b {A} (o : option A) : bool :=
  match o with Some _ => true | None => false end.

(** A truthy property of the model: a function, or a value that cannot be
    called. *)
Inductive Capability (F : Type) : Type :=
| NotCallable
| Callable (f : F).
Arguments NotCallable {F}.
Arguments Callable {F} f.

(** ** The storage model: each capability is missing (or falsy), or is a
    truthy value, which may or may not be a function. *)
Module Model.
Record t (W : Type) := mk {
  getAuthorizationCode :
    option (Capability
              (string -> W -> Reply (option AuthorizationCode) * W));
  revokeAuthorizationCode :
    option (Capability (AuthorizationCode -> W -> Reply bool * W));
  saveToken :
    option (Capability
              (Token -> Client -> option User -> W -> Reply Token * W));
}.
Arguments mk {W}.
Arguments getAuthorizationCode {W}.
Arguments revokeAuthorizationCode {W}.
Arguments saveToken {W}.
End Model.

Record Options (W : Type) := { model : option (Model.t W) }.
Arguments model {W}.

(** The grant type object: [this.model]. *)
Record Grant (W : Type) := { this_model : option (Model.t W) }.
Arguments this_model {W}.
Arguments Build_Grant {W}.

(** ** A concrete world to run the grant type on

    An in-memory store of codes, the tokens saved so far and a clock; a scope
    policy that narrows every request to ["read"]; generators that echo the
    scope they were called with. *)
Module Sample.

Record World := {
  codes : gmap string AuthorizationCode;
  consumed : gset string;
  tokens : list Token;
  clock : Z;
}.

Definition getAuthorizationCode (c : string) (w : World)
    : Reply (option AuthorizationCode) * World :=
  (Resolved (codes w !! c), w).

(** The first revocation of a code consumes it; any later one fails. *)
Definition revokeAuthorizationCode (code : AuthorizationCode) (w : World)
    : Reply bool * World :=
  if bool_decide (authorizationCode code ∈ consumed w) then
    (Resolved false, w)
  else
    (Resolved true,
     {| codes := codes w;
        consumed := {[authorizationCode code]} ∪ consumed w;
        tokens := tokens w; clock := clock w |}).

Definition saveToken (token : Token) (c : Client) (u : option User)
    (w : World) : Reply Token * World :=
  (Resolved token,
   {| codes := codes w; consumed := consumed w;
      tokens := token :: tokens w; clock := clock w |}).

Definition memory_model : Model.t World :=
  Model.mk (Some (Callable getAuthorizationCode))
    (Some (Callable revokeAuthorizationCode)) (Some (Callable saveToken)).

Definition options : Options World := {| model := Some memory_model |}.

Definition super_check (o : Options World) : option Error := None.

Definition validateScope (u : option User) (c : Client) (s : string)
    (w : World) : Reply string * World := (Resolved "read"%string, w).

Definition generateAccessToken (c : Client) (u : option User) (s : string)
    (w : World) : Reply string * World :=
  (Resolved ("access:" ++ s)%string, w).

Definition generateRefreshToken (c : Client) (u : option User) (s : string)
    (w : World) : Reply string * World :=
  (Resolved ("refresh:" ++ s)%string, w).

Definition getAccessTokenExpiresAt (w : World) : Reply Stamp * World :=
  (Resolved (StampAt (clock w + 3600000)), w).

Definition getRefreshTokenExpiresAt (w : World) : Reply Stamp * World :=
  (Resolved (StampAt (clock w + 1209600000)), w).

Definition date_now (w : World) : Z * World := (clock w, w).

(** Validators in the style of [validator/is]: printable ASCII, and a scheme
    followed by a colon. *)
Definition printable (c : ascii) : bool :=
  (32 <=? nat_of_ascii c) && (nat_of_ascii c <=? 126).

Definition is_vschar (s : string) : bool :=
  negb (String.eqb s "") && forallb printable (list_ascii_of_string s).

Definition alpha (c : ascii) : bool :=
  let n := nat_of_ascii c in
  ((65 <=? n) && (n <=? 90)) || ((97 <=? n) && (n <=? 122)).

Definition scheme_char (c : ascii) : bool :=
  let n := nat_of_ascii c in
  alpha c || ((48 <=? n) && (n <=? 57))
  || (n =? 43) || (n =? 45) || (n =? 46).

Fixpoint scheme_tail (seen : bool) (l : list ascii) : bool :=
  match l with
  | [] => false
  | c :: l' =>
      if seen && (nat_of_ascii c =? 58) then true
      else if scheme_char c then scheme_tail true l'
      else false
  end.

Definition is_uri (v : option string) : bool :=
  match v with
  | Some (String c s) => alpha c && scheme_tail false (list_ascii_of_string s)
  | _ => false
  end.

(** The client, the user and the request of the running example. *)
Definition alice : User := {| username := "alice" |}.
Definition app : Client := {| id := "app" |}.
Definition other_app : Client := {| id := "other-app" |}.

Definition pkce_code : AuthorizationCode :=
  {| authorizationCode := "abc123";
     expiresAt := DateAt 2000;
     redirectUri := Some "https://app.example/cb"%string;
     scope := "read write";
     client := Some app;
     user := Some alice;
     codeChallenge := Some "rxPiyZz8P240xCXTZCn7w9huUtn-Efu70HAeOJkMu_I"%string;
     codeChallengeMethod := Some "S256"%string |}.

Definition plain_code : AuthorizationCode :=
  {| authorizationCode := "plain1";
     expiresAt := DateAt 2000;
     redirectUri := None;
     scope := "read";
     client := Some app;
     user := Some alice;
     codeChallenge := None;
     codeChallengeMethod := None |}.

(** Expired half a second before the clock of [world0]. *)
Definition expired_code : AuthorizationCode :=
  {| authorizationCode := "old777";
     expiresAt := DateAt 500;
     redirectUri := None;
     scope := "read";
     client := Some app;
     user := Some alice;
     codeChallenge := None;
     codeChallengeMethod := None |}.

(** Expires at the very instant of the clock of [world0]. *)
Definition edge_code : AuthorizationCode :=
  {| authorizationCode := "edge42";
     expiresAt := DateAt 1000;
     redirectUri := None;
     scope := "read";
     client := Some app;
     user := Some alice;
     codeChallenge := None;
     codeChallengeMethod := None |}.

(** A record whose expiry is not a Date. *)
Definition undated_code : AuthorizationCode :=
  {| authorizationCode := "bad999";
     expiresAt := NotADate;
     redirectUri := None;
     scope := "read";
     client := Some app;
     user := Some alice;
     codeChallenge := None;
     codeChallengeMethod := None |}.

(** A record without a client. *)
Definition orphan_code : AuthorizationCode :=
  {| authorizationCode := "orphan";
     expiresAt := DateAt 2000;
     redirectUri := None;
     scope := "read";
     client := None;
     user := Some alice;
     codeChallenge := None;
     codeChallengeMethod := None |}.

Definition world0 : World :=
  {| codes := <["abc123"%string := pkce_code]>
                (<["plain1"%string := plain_code]>
                  (<["old777"%string := expired_code]>
                    (<["edge42"%string := edge_code]>
                      (<["bad999"%string := undated_code]>
                        (<["orphan"%string := orphan_code]> ∅)))));
     consumed := ∅;
     tokens := [];
     clock := 1000 |}.

Definition pkce_request : Request :=
  {| body := <["code"%string := "abc123"%string]>
               (<["code_verifier"%string := "verifier-xyz"%string]>
                 (<["redirect_uri"%string := "https://app.example/cb"%string]> ∅));
     query := ∅ |}.

Definition request_for (c : string) : Request :=
  {| body := <["code"%string := c]> ∅; query := ∅ |}.

Definition plain_request : Request := request_for "plain1".

(** [plain_request] with a verifier that nothing asked for. *)
Definition plain_request_with_verifier : Request :=
  {| body := <["code"%string := "plain1"%string]>
               (<["code_verifier"%string := "verifier-xyz"%string]> ∅);
     query := ∅ |}.

(** [world0] once the code ["abc123"] has been consumed. *)
Definition world1 : World :=
  {| codes := codes world0;
     consumed := {["abc123"%string]};
     tokens := tokens world0;
     clock := clock world0 |}.

(** Options whose model cannot save tokens. *)
Definition options_without_saveToken : Options World :=
  {| model :=
       Some (Model.mk (Some (Callable getAuthorizationCode))
               (Some (Callable revokeAuthorizationCode)) None) |}.

Definition this : Grant World := {| this_model := Some memory_model |}.

End Sample.

(** ** Further records, requests and collaborators for the edge cases *)
Module Edge.

(** A challenge to be compared with the verifier as it is. *)
Definition plain_pkce_code : AuthorizationCode :=
  {| authorizationCode := "pln456";
     expiresAt := DateAt 2000;
     redirectUri := None;
     scope := "read";
     client := Some Sample.app;
     user := Some Sample.alice;
     codeChallenge := Some "verifier-xyz"%string;
     codeChallengeMethod := Some "plain"%string |}.

(** A Date that holds NaN. *)
Definition nan_code : AuthorizationCode :=
  {| authorizationCode := "nan000";
     expiresAt := InvalidDate;
     redirectUri := None;
     scope := "read";
     client := Some Sample.app;
     user := Some Sample.alice;
     codeChallenge := None;
     codeChallengeMethod := None |}.

(** A stored redirect URI without a scheme. *)
Definition relative_code : AuthorizationCode :=
  {| authorizationCode := "rel111";
     expiresAt := DateAt 2000;
     redirectUri := Some "/callback"%string;
     scope := "read";
     client := Some Sample.app;
     user := Some Sample.alice;
     codeChallenge := None;
     codeChallengeMethod := None |}.

Definition world : Sample.World :=
  {| Sample.codes :=
       <["pln456"%string := plain_pkce_code]>
         (<["nan000"%string := nan_code]>
           (<["rel111"%string := relative_code]> (Sample.codes Sample.world0)));
     Sample.consumed := ∅;
     Sample.tokens := [];
     Sample.clock := 1000 |}.

Definition plain_pkce_request : Request :=
  {| body := <["code"%string := "pln456"%string]>
               (<["code_verifier"%string := "verifier-xyz"%string]> ∅);
     query := ∅ |}.

(** The running example without its verifier. *)
Definition request_without_verifier : Request :=
  {| body := <["code"%string := "abc123"%string]>
               (<["redirect_uri"%string := "https://app.example/cb"%string]> ∅);
     query := ∅ |}.

(** The running example with another redirect URI. *)
Definition request_with_other_redirect : Request :=
  {| body := <["code"%string := "abc123"%string]>
               (<["code_verifier"%string := "verifier-xyz"%string]>
                 (<["redirect_uri"%string := "https://evil.example/cb"%string]> ∅));
     query := ∅ |}.

(** The running example with its redirect URI in the query, and then with a
    stray one there beside the right one in the body. *)
Definition request_with_query_redirect : Request :=
  {| body := <["code"%string := "abc123"%string]>
               (<["code_verifier"%string := "verifier-xyz"%string]> ∅);
     query := <["redirect_uri"%string := "https://app.example/cb"%string]> ∅ |}.

Definition request_with_both_redirects : Request :=
  {| body := body Sample.pkce_request;
     query := <["redirect_uri"%string := "https://evil.example/cb"%string]> ∅ |}.

(** A code parameter with a control character in it. *)
Definition request_with_control_char : Request :=
  Sample.request_for (String (ascii_of_nat 7) "abc").

Definition empty_request : Request := {| body := ∅; query := ∅ |}.

(** A generator that is out of entropy. *)
Definition failing_generateAccessToken (c : Client) (u : option User)
    (s : string) (w : Sample.World) : Reply string * Sample.World :=
  (Rejected "no entropy", w).

(** An access expiry getter that hands back a promise that rejects, and one
    that throws. *)
Definition promising_getAccessTokenExpiresAt (w : Sample.World)
    : Reply Stamp * Sample.World :=
  (Resolved (StampPromise (Rejected "clock down")), w).

Definition throwing_getAccessTokenExpiresAt (w : Sample.World)
    : Reply Stamp * Sample.World :=
  (Rejected "clock down", w).

(** A model whose [getAuthorizationCode] is a truthy value that is not a
    function, and the grant type built on it. *)
Definition uncallable_model : Model.t Sample.World :=
  Model.mk (Some NotCallable)
    (Some (Callable Sample.revokeAuthorizationCode))
    (Some (Callable Sample.saveToken)).

Definition options_with_uncallable_lookup : Options Sample.World :=
  {| model := Some uncallable_model |}.

Definition uncallable_this : Grant Sample.World :=
  {| this_model := Some uncallable_model |}.

(** Options whose model can only save tokens. *)
Definition options_with_saveToken_only : Options Sample.World :=
  {| model :=
       Some (Model.mk None None (Some (Callable Sample.saveToken))) |}.

End Edge.

(** ** The grant type *)
Section AuthorizationCodeGrantType.

(** The collaborators' world. *)
Context {W : Type}.

(** [validator/is], whose file is not among the sources. [is.uri] is also
    applied to a value that may be [undefined]. *)
Variable is_vschar : string -> bool.
Variable is_uri : option string -> bool.

(** What the class inherits from the abstract grant type, whose file is not
    among the sources: the checks of its constructor, the scope policy, the
    token generators and the expiry policy.  The two expiry getters are
    called without [await]: for them [Rejected] is a throw, and a promise
    that they return, one that rejects included, is a [StampPromise]. *)
Variable super_check : Options W -> option Error.
Variable validateScope :
  option User -> Client -> string -> W -> Reply string * W.
Variable generateAccessToken :
  Client -> option User -> string -> W -> Reply string * W.
Variable generateRefreshToken :
  Client -> option User -> string -> W -> Reply string * W.
Variable getAccessTokenExpiresAt : W -> Reply Stamp * W.
Variable getRefreshTokenExpiresAt : W -> Reply Stamp * W.

(** [Date.now()], in milliseconds. *)
Variable date_now : W -> Z * W.

(** *** State, exceptions and the log *)
Record State := { world : W; log : list Event }.

Definition M (A : Type) : Type := State -> Result A * State.

Definition ret {A} (a : A) : M A := fun st => (Ok a, st).

Definition throw {A} (e : Error) : M A := fun st => (Throw e, st).

Definition bind {A B} (m : M A) (k : A -> M B) : M B :=
  fun st =>
    match m st with
    | (Ok a, st') => k a st'
    | (Throw e, st') => (Throw e, st')
    end.

Notation "'let*' x ':=' m 'in' k" := (bind m (fun x => k))
  (at level 10, x name, m at level 100, k at level 200).

(** A call to a collaborator: run it on the world, log it. *)
Definition call {A} (f : W -> Reply A * W) (ev : Reply A -> Event) : M A :=
  fun st =>
    let '(r, w) := f (world st) in
    (settle r, {| world := w; log := log st ++ [ev r] |}).

(** A call that is not awaited: what it returns is taken as it is, a promise
    included, and only a throw ends the run. *)
Definition call_unawaited (f : W -> Reply Stamp * W)
    (ev : Reply Stamp -> Event) : M Stamp :=
  call f ev.

(** [this.model.f(...)]: a [TypeError] when [f] is missing or is not a
    function. *)
Definition call_model {F A} (this : Grant W)
    (cap : Model.t W -> option (Capability F))
    (name : string) (app : F -> W -> Reply A * W)
    (ev : Reply A -> Event) : M A :=
  match this_model this with
  | None => throw (TypeError ("Cannot read properties of undefined: " ++ name))
  | Some m =>
      match cap m with
      | None | Some NotCallable =>
          throw (TypeError ("this.model." ++ name ++ " is not a function"))
      | Some (Callable f) => call (app f) ev
      end
  end.

Definition now : M Z :=
  fun st =>
    let '(t, w) := date_now (world st) in
    (Ok t, {| world := w; log := log st |}).

(** Outcome, final world and calls made, from a world and an empty log. *)
Definition exec {A} (m : M A) (w : W) : Result A * State :=
  m {| world := w; log := [] |}.

Definition outcome {A} (m : M A) (w : W) : Result A := fst (exec m w).

Definition trace {A} (m : M A) (w : W) : list Event := log (snd (exec m w)).

(** *** The constructor *)

(** Modelled from the spec: the abstract grant type's constructor, absent
    from the sources, keeps the model of the options in [this.model]; what
    else it checks is [super_check]. *)
Definition AbstractGrantType (options : Options W) : Result (Grant W) :=
  match super_check options with
  | Some e => Throw e
  | None => Ok {| this_model := model options |}
  end.

Definition constructor (options : Options W) : Result (Grant W) :=
  match AbstractGrantType options with
  | Throw e => Throw e
  | Ok this =>
      match model options with
      | None => Throw (InvalidArgumentError "Missing parameter: `model`")
      | Some m =>
          if negb (is_Some_b (Model.getAuthorizationCode m)) then
            Throw (InvalidArgumentError
              "Invalid argument: model does not implement `getAuthorizationCode()`")
          else if negb (is_Some_b (Model.revokeAuthorizationCode m)) then
            Throw (InvalidArgumentError
              "Invalid argument: model does not implement `revokeAuthorizationCode()`")
          else if negb (is_Some_b (Model.saveToken m)) then
            Throw (InvalidArgumentError
              "Invalid argument: model does not implement `saveToken()`")
          else Ok this
      end
  end.

(** *** [getAuthorizationCode] *)
Definition getAuthorizationCode (this : Grant W) (request : Request)
    (client_ : Client) : M AuthorizationCode :=
  match truthy_string (body request !! "code") with
  | None => throw (InvalidRequestError "Missing parameter: `code`")
  | Some code_param =>
  if negb (is_vschar code_param) then
    throw (InvalidRequestError "Invalid parameter: `code`")
  else
  let* fetched :=
    call_model this Model.getAuthorizationCode "getAuthorizationCode"
      (fun f => f code_param) (EvGetAuthorizationCode code_param) in
  match fetched with
  | None =>
      throw (InvalidGrantError "Invalid grant: authorization code is invalid")
  | Some code =>
  match client code with
  | None =>
      throw (ServerError
        "Server error: `getAuthorizationCode()` did not return a `client` object")
  | Some code_client =>
  if negb (is_Some_b (user code)) then
    throw (ServerError
      "Server error: `getAuthorizationCode()` did not return a `user` object")
  else
  if negb (String.eqb (id code_client) (id client_)) then
    throw (InvalidGrantError "Invalid grant: authorization code is invalid")
  else
  if negb (instanceof_Date (expiresAt code)) then
    throw (ServerError "Server error: `expiresAt` must be a Date instance")
  else
  let* t := now in
  if js_lt (getTime (expiresAt code)) t then
    throw (InvalidGrantError "Invalid grant: authorization code has expired")
  else
  if truthy (redirectUri code) && negb (is_uri (redirectUri code)) then
    throw (InvalidGrantError "Invalid grant: `redirect_uri` is not a valid URI")
  else
  if truthy (codeChallenge code) then
    match truthy_string (body request !! "code_verifier") with
    | None => throw (InvalidGrantError "Missing parameter: `code_verifier`")
    | Some code_verifier =>
        let* hash :=
          if case_eq_lit (codeChallengeMethod code) "plain" then
            ret code_verifier
          else if case_eq_lit (codeChallengeMethod code) "S256" then
            ret (StringUtil.base64URLEncode (Crypto.sha256 code_verifier))
          else
            throw (ServerError
              "Server error: `getAuthorizationCode()` did not return a valid `codeChallengeMethod` property") in
        if strict_ne (codeChallenge code) (Some hash) then
          throw (InvalidGrantError "Invalid grant: code verifier is invalid")
        else ret code
    end
  else
    if truthy (body request !! "code_verifier") then
      throw (InvalidGrantError "Invalid grant: code verifier is invalid")
    else ret code
  end
  end
  end.

(** *** [validateRedirectUri] *)
Definition validateRedirectUri (request : Request) (code : AuthorizationCode)
    : Result unit :=
  if negb (truthy (redirectUri code)) then Ok tt
  else
    let redirectUri_ :=
      js_or (body request !! "redirect_uri") (query request !! "redirect_uri") in
    if negb (is_uri redirectUri_) then
      Throw (InvalidRequestError
        "Invalid request: `redirect_uri` is not a valid URI")
    else if strict_ne redirectUri_ (redirectUri code) then
      Throw (InvalidRequestError "Invalid request: `redirect_uri` is invalid")
    else Ok tt.

Definition lift {A} (r : Result A) : M A := fun st => (r, st).

(** *** [revokeAuthorizationCode] *)
Definition revokeAuthorizationCode (this : Grant W) (code : AuthorizationCode)
    : M AuthorizationCode :=
  let* status :=
    call_model this Model.revokeAuthorizationCode "revokeAuthorizationCode"
      (fun f => f code) (EvRevokeAuthorizationCode code) in
  if negb status then
    throw (InvalidGrantError "Invalid grant: authorization code is invalid")
  else ret code.

(** *** [saveToken] *)
Definition saveToken (this : Grant W) (user_ : option User) (client_ : Client)
    (authorizationCode_ : string) (scope_ : string) : M Token :=
  let* accessScope :=
    call (validateScope user_ client_ scope_)
      (EvValidateScope user_ client_ scope_) in
  let* accessToken :=
    call (generateAccessToken client_ user_ scope_)
      (EvGenerateAccessToken client_ user_ scope_) in
  let* refreshToken :=
    call (generateRefreshToken client_ user_ scope_)
      (EvGenerateRefreshToken client_ user_ scope_) in
  let* accessTokenExpiresAt :=
    call_unawaited getAccessTokenExpiresAt EvGetAccessTokenExpiresAt in
  let* refreshTokenExpiresAt :=
    call_unawaited getRefreshTokenExpiresAt EvGetRefreshTokenExpiresAt in
  let token :=
    {| Token.accessToken := accessToken;
       Token.authorizationCode := authorizationCode_;
       Token.accessTokenExpiresAt := accessTokenExpiresAt;
       Token.refreshToken := refreshToken;
       Token.refreshTokenExpiresAt := refreshTokenExpiresAt;
       Token.scope := accessScope |} in
  call_model this Model.saveToken "saveToken"
    (fun f => f token client_ user_) (EvSaveToken token client_ user_).

(** *** [handle] *)
Definition handle (this : Grant W) (request : option Request)
    (client_ : option Client) : M Token :=
  match request with
  | None => throw (InvalidArgumentError "Missing parameter: `request`")
  | Some request =>
  match client_ with
  | None => throw (InvalidArgumentError "Missing parameter: `client`")
  | Some client_ =>
      let* code := getAuthorizationCode this request client_ in
      let* _ := lift (validateRedirectUri request code) in
      let* _ := revokeAuthorizationCode this code in
      saveToken this (user code) client_ (authorizationCode code) (scope code)
  end
  end.



(** *** Vocabulary of the statements *)

(** The request names a well-formed code, and the store answers [fetched] for
    it, leaving the world [w1]. *)
Definition looks_up (this : Grant W) (request : Request) (w : W)
    (fetched : option AuthorizationCode) (w1 : W) : Prop :=
  exists c m f,
    truthy_string (body request !! "code") = Some c /\
    is_vschar c = true /\
    this_model this = Some m /\
    Model.getAuthorizationCode m = Some (Callable f) /\
    f c w = (Resolved fetched, w1).

Definition has_parties (code : AuthorizationCode) : bool :=
  is_Some_b (client code) && is_Some_b (user code).

Definition bound_to (code : AuthorizationCode) (client_ : Client) : bool :=
  match client code with
  | Some c => String.eqb (id c) (id client_)
  | None => false
  end.

Definition expired_at (code : AuthorizationCode) (t : Z) : bool :=
  js_lt (getTime (expiresAt code)) t.

Definition redirect_ok (code : AuthorizationCode) : bool :=
  negb (truthy (redirectUri code)) || is_uri (redirectUri code).

(** Every check that precedes the PKCE verification passes at instant [t]. *)
Definition valid_at (code : AuthorizationCode) (client_ : Client) (t : Z)
    : bool :=
  has_parties code && bound_to code client_
  && instanceof_Date (expiresAt code) && negb (expired_at code t)
  && redirect_ok code.

Definition known_method (code : AuthorizationCode) : bool :=
  case_eq_lit (codeChallengeMethod code) "plain"
  || case_eq_lit (codeChallengeMethod code) "S256".

(** A record that breaks the storage contract: no client, no user, an expiry
    that is not a Date, or a challenge with an unknown method. *)
Definition structurally_invalid (code : AuthorizationCode) : bool :=
  negb (is_Some_b (client code))
  || negb (is_Some_b (user code))
  || negb (instanceof_Date (expiresAt code))
  || (truthy (codeChallenge code) && negb (known_method code)).

(** Why a code is refused: the store does not know it, it belongs to another
    client than the one presenting it, or it has expired. *)
Inductive Refusal : Type := Nonexistent | WrongClient | Expired.

Definition refused (why : Refusal) (this : Grant W) (request : Request)
    (client_ : Client) (w : W) : Prop :=
  match why with
  | Nonexistent => exists w1, looks_up this request w None w1
  | WrongClient =>
      exists code w1,
        looks_up this request w (Some code) w1 /\
        has_parties code = true /\ bound_to code client_ = false
  | Expired =>
      exists code w1 t w2 e,
        looks_up this request w (Some code) w1 /\
        date_now w1 = (t, w2) /\
        has_parties code = true /\ bound_to code client_ = true /\
        expiresAt code = DateAt e /\ (e < t)%Z
  end.

Definition is_Expired (why : Refusal) : bool :=
  match why with Expired => true | _ => false end.

(** Errors that report a capability missing from the model. *)
Definition missing_capability (e : Error) : bool :=
  match e with
  | TypeError _ => true
  | InvalidArgumentError msg =>
      existsb (String.eqb msg)
        [ "Missing parameter: `model`";
          "Invalid argument: model does not implement `getAuthorizationCode()`";
          "Invalid argument: model does not implement `revokeAuthorizationCode()`";
          "Invalid argument: model does not implement `saveToken()`" ]%string
  | _ => false
  end.

Definition lacks_capability (options : Options W) : Prop :=
  match model options with
  | None => True
  | Some m =>
      Model.getAuthorizationCode m = None
      \/ Model.revokeAuthorizationCode m = None
      \/ Model.saveToken m = None
  end.

(** Every capability of the model is a function. *)
Definition callable_model (m : Model.t W) : Prop :=
  exists get revoke save,
    Model.getAuthorizationCode m = Some (Callable get) /\
    Model.revokeAuthorizationCode m = Some (Callable revoke) /\
    Model.saveToken m = Some (Callable save).

(** What proves possession of the code: without a challenge, no verifier;
    with one, a verifier that equals the challenge (method [plain]) or whose
    encoded digest does (method [S256]). *)
Definition pkce_proved (code : AuthorizationCode) (request : Request) : Prop :=
  (truthy (codeChallenge code) = false /\
   truthy (body request !! "code_verifier") = false)
  \/ (truthy (codeChallenge code) = true /\
      exists verifier,
        truthy_string (body request !! "code_verifier") = Some verifier /\
        ((codeChallengeMethod code = Some "plain"%string /\
          codeChallenge code = Some verifier)
         \/ (codeChallengeMethod code = Some "S256"%string /\
             codeChallenge code
             = Some (StringUtil.base64URLEncode (Crypto.sha256 verifier))))).

(** The collaborator that an event is a call of. *)
Inductive Step : Type :=
| LookupCode | RevokeCode | ResolveScope | MakeAccessToken | MakeRefreshToken
| StampAccessToken | StampRefreshToken | PersistToken.

Definition step_of (ev : Event) : Step :=
  match ev with
  | EvGetAuthorizationCode _ _ => LookupCode
  | EvRevokeAuthorizationCode _ _ => RevokeCode
  | EvValidateScope _ _ _ _ => ResolveScope
  | EvGenerateAccessToken _ _ _ _ => MakeAccessToken
  | EvGenerateRefreshToken _ _ _ _ => MakeRefreshToken
  | EvGetAccessTokenExpiresAt _ => StampAccessToken
  | EvGetRefreshTokenExpiresAt _ => StampRefreshToken
  | EvSaveToken _ _ _ _ => PersistToken
  end.

Definition handle_steps : list Step :=
  [ LookupCode; RevokeCode; ResolveScope; MakeAccessToken; MakeRefreshToken;
    StampAccessToken; StampRefreshToken; PersistToken ].

(** The reason of the failure that an event records, if it records one: a
    rejection or a throw of an awaited call, a throw of an expiry getter. *)
Definition rejection (ev : Event) : option string :=
  match ev with
  | EvGetAuthorizationCode _ (Rejected r)
  | EvRevokeAuthorizationCode _ (Rejected r)
  | EvValidateScope _ _ _ (Rejected r)
  | EvGenerateAccessToken _ _ _ (Rejected r)
  | EvGenerateRefreshToken _ _ _ (Rejected r)
  | EvGetAccessTokenExpiresAt (Rejected r)
  | EvGetRefreshTokenExpiresAt (Rejected r)
  | EvSaveToken _ _ _ (Rejected r) => Some r
  | _ => None
  end.

(** The errors that the grant type constructs itself. *)
Definition own_error (e : Error) : bool :=
  match e with
  | InvalidArgumentError _ | InvalidGrantError _
  | InvalidRequestError _ | ServerError _ => true
  | _ => false
  end.

(** *** Weakest preconditions

    [wp m Q st]: run from [st], the computation [m] ends with an outcome and
    a state that satisfy [Q]. Every computation ends: [M] is a function. *)
Definition wp {A} (m : M A) (Q : Result A -> State -> Prop) (st : State)
    : Prop :=
  Q (fst (m st)) (snd (m st)).

Lemma wp_ret {A} (a : A) (Q : Result A -> State -> Prop) st :
  Q (Ok a) st -> wp (ret a) Q st.
Proof. exact (fun H => H). Qed.

Lemma wp_throw {A} (e : Error) (Q : Result A -> State -> Prop) st :
  Q (Throw e) st -> wp (throw e) Q st.
Proof. exact (fun H => H). Qed.

Lemma wp_lift {A} (r : Result A) (Q : Result A -> State -> Prop) st :
  Q r st -> wp (lift r) Q st.
Proof. exact (fun H => H). Qed.

Lemma wp_bind {A B} (m : M A) (k : A -> M B)
    (Q : Result B -> State -> Prop) st :
  wp m (fun r st' =>
          match r with
          | Ok a => wp (k a) Q st'
          | Throw e => Q (Throw e) st'
          end) st ->
  wp (bind m k) Q st.
Proof.
  unfold wp, bind. destruct (m st) as [[a|e] st']; exact (fun H => H).
Qed.

Lemma wp_call {A} (f : W -> Reply A * W) (ev : Reply A -> Event)
    (Q : Result A -> State -> Prop) st :
  (forall r w, f (world st) = (r, w) ->
     Q (settle r) {| world := w; log := log st ++ [ev r] |}) ->
  wp (call f ev) Q st.
Proof.
  unfold wp, call. intros H.
  destruct (f (world st)) as [r w] eqn:E. exact (H r w eq_refl).
Qed.

Lemma wp_now (Q : Result Z -> State -> Prop) st :
  (forall t w, date_now (world st) = (t, w) ->
     Q (Ok t) {| world := w; log := log st |}) ->
  wp now Q st.
Proof.
  unfold wp, now. intros H.
  destruct (date_now (world st)) as [t w] eqn:E. exact (H t w eq_refl).
Qed.

Lemma wp_of_result {A} (m : M A) (Q : Result A -> State -> Prop) st :
  (forall r st', m st = (r, st') -> Q r st') -> wp m Q st.
Proof.
  unfold wp. intros H. destruct (m st) as [r st'] eqn:E. exact (H r st' eq_refl).
Qed.

Lemma wp_bind_run {A B} (m : M A) (k : A -> M B)
    (Q : Result B -> State -> Prop) st :
  (forall r st', m st = (r, st') ->
     match r with
     | Ok a => wp (k a) Q st'
     | Throw e => Q (Throw e) st'
     end) ->
  wp (bind m k) Q st.
Proof. intros H. apply wp_bind, wp_of_result. exact H. Qed.

Lemma wp_exec {A} (m : M A) (Q : Result A -> State -> Prop) (w : W) :
  wp m Q {| world := w; log := [] |} ->
  Q (outcome m w) (snd (exec m w)).
Proof. exact (fun H => H). Qed.

(** One step of symbolic execution: a monad operation by its rule, a guard
    by the hypothesis that decides it or else by cases. *)
Ltac wp_known x :=
  match goal with
  | H : ?l = _ |- _ =>
      match x with
      | context [l] => rewrite H
      end
  end.

Ltac wp_guard x :=
  lazymatch x with
  | negb ?b => wp_guard b
  | _ =>
      first
        [ wp_known x
        | is_var x; destruct x
        | destruct x eqn:? ]
  end.

Ltac wp_intro_call :=
  let H := fresh "Hcall" in
  intros ? ? H; cbn [world log app] in H;
  try match type of H with
      | ?l = _ =>
          match goal with
          | H' : l = (_, _) |- _ =>
              tryif constr_eq H' H then fail
              else (rewrite H' in H; injection H as ? ?; subst)
          end
      end.

Ltac wp_simpl := cbv beta; cbn [world log settle negb app is_Some_b].

Ltac wp_step :=
  wp_simpl;
  lazymatch goal with
  | |- wp (bind _ _) _ _ => apply wp_bind
  | |- wp (ret _) _ _ => apply wp_ret
  | |- wp (throw _) _ _ => apply wp_throw
  | |- wp (lift _) _ _ => apply wp_lift
  | |- wp (call _ _) _ _ => apply wp_call; wp_intro_call
  | |- wp (call_unawaited _ _) _ _ => unfold call_unawaited
  | |- wp now _ _ => apply wp_now; wp_intro_call
  | |- wp (call_model _ _ _ _ _) _ _ => unfold call_model
  | |- wp (handle _ _ _) _ _ => unfold handle
  | |- wp (getAuthorizationCode _ _ _) _ _ => unfold getAuthorizationCode
  | |- wp (revokeAuthorizationCode _ _) _ _ => unfold revokeAuthorizationCode
  | |- wp (saveToken _ _ _ _ _) _ _ => unfold saveToken
  | |- wp (match ?x with _ => _ end) _ _ => wp_guard x
  | |- wp (let _ := _ in _) _ _ => cbv zeta
  | |- match settle ?r with _ => _ end => destruct r
  | |- match ?x with Ok _ => _ | Throw _ => _ end => wp_guard x
  end.

Ltac wp_run :=
  repeat wp_step; cbv beta;
  try match goal with
      | |- context [settle ?r] => is_var r; destruct r
      end;
  wp_simpl.

(** Turn a goal about the outcome (and the trace) of a run into a [wp]. *)
Ltac wp_outcome :=
  match goal with
  | |- context [trace ?m ?w] =>
      pattern (outcome m w), (trace m w);
      match goal with
      | |- ?P _ _ => refine (wp_exec m (fun r st => P r (log st)) w _)
      end
  | |- context [outcome ?m ?w] =>
      pattern (outcome m w);
      match goal with
      | |- ?P _ => refine (wp_exec m (fun r _ => P r) w _)
      end
  end.

(** ** Properties *)

(** C6. [validateRedirectUri] does nothing when the code has no redirect URI.
    Otherwise the redirect URI of the request is the one of the body when the
    body has a non-empty one, and the one of the query when it has not; the
    function returns normally exactly when that value is a valid URI equal to
    the stored one, and in every other case it throws [InvalidRequestError],
    never [InvalidGrantError]. *)
Theorem validateRedirectUri_checks_equality (request : Request)
    (code : AuthorizationCode) :
  (truthy (redirectUri code) = false ->
     validateRedirectUri request code = Ok tt) /\
  (truthy (redirectUri code) = true ->
     (truthy (body request !! "redirect_uri") = true ->
        (validateRedirectUri request code = Ok tt <->
           is_uri (body request !! "redirect_uri") = true /\
           body request !! "redirect_uri" = redirectUri code)) /\
     (truthy (body request !! "redirect_uri") = false ->
        (validateRedirectUri request code = Ok tt <->
           is_uri (query request !! "redirect_uri") = true /\
           query request !! "redirect_uri" = redirectUri code)) /\
     (validateRedirectUri request code <> Ok tt ->
        exists msg,
          validateRedirectUri request code = Throw (InvalidRequestError msg)
          /\ forall msg',
               validateRedirectUri request code
               <> Throw (InvalidGrantError msg'))).
Proof.
  assert (Hvalue : forall r,
            (if negb (is_uri r) then
               Throw (InvalidRequestError
                        "Invalid request: `redirect_uri` is not a valid URI")
             else if strict_ne r (redirectUri code) then
               Throw (InvalidRequestError
                        "Invalid request: `redirect_uri` is invalid")
             else Ok tt) = Ok tt
            <-> is_uri r = true /\ r = redirectUri code).
  { intros r. unfold strict_ne.
    destruct (is_uri r); cbn [negb].
    - destruct (bool_decide_reflect (r = redirectUri code)); cbn [negb].
      + tauto.
      + split; [discriminate | tauto].
    - split; [discriminate | intros [? _]; discriminate]. }
  unfold validateRedirectUri, js_or.
  split; intros Hstored; rewrite Hstored; cbn [negb]; [reflexivity|].
  split; [|split].
  - intros Hbody. rewrite Hbody. apply Hvalue.
  - intros Hbody. rewrite Hbody. apply Hvalue.
  - set (r := if truthy (body request !! "redirect_uri") then _ else _).
    destruct (is_uri r); cbn [negb];
      [destruct (strict_ne r (redirectUri code))|];
      intros Hne; try contradiction;
      eexists; (split; [reflexivity | discriminate]).
Qed.

Lemma validateRedirectUri_throws (request : Request)
    (code : AuthorizationCode) (e : Error) :
  validateRedirectUri request code = Throw e ->
  exists msg, e = InvalidRequestError msg.
Proof.
  unfold validateRedirectUri.
  repeat match goal with
         | |- context [if ?b then _ else _] => destruct b
         end;
    intros [=]; subst; eauto.
Qed.

Lemma looks_up_inv this request w fetched w1 :
  looks_up this request w fetched w1 ->
  exists c m f,
    truthy_string (body request !! "code") = Some c /\
    is_vschar c = true /\
    this_model this = Some m /\
    Model.getAuthorizationCode m = Some (Callable f) /\
    f c w = (Resolved fetched, w1).
Proof. exact (fun H => H). Qed.

Lemma valid_at_inv (code : AuthorizationCode) (client_ : Client) (t : Z) :
  valid_at code client_ t = true ->
  exists c u,
    client code = Some c /\ user code = Some u /\
    String.eqb (id c) (id client_) = true /\
    instanceof_Date (expiresAt code) = true /\
    js_lt (getTime (expiresAt code)) t = false /\
    truthy (redirectUri code) && negb (is_uri (redirectUri code)) = false.
Proof.
  unfold valid_at, has_parties, bound_to, expired_at.
  destruct (client code) as [c|]; [|discriminate].
  destruct (user code) as [u|]; [|discriminate].
  cbn [is_Some_b andb].
  destruct (String.eqb (id c) (id client_)) eqn:Hid; [|discriminate].
  destruct (instanceof_Date (expiresAt code)); [|discriminate].
  destruct (js_lt (getTime (expiresAt code)) t); [discriminate|].
  unfold redirect_ok.
  destruct (truthy (redirectUri code)), (is_uri (redirectUri code));
    try discriminate;
    intros _; exists c, u; repeat split; reflexivity || assumption.
Qed.

(** Unpack the hypotheses that describe a lookup and a valid record. *)
Ltac unpack_lookup :=
  repeat match goal with
         | H : looks_up _ _ _ _ _ |- _ =>
             apply looks_up_inv in H;
             destruct H as (? & ? & ? & ? & ? & ? & ? & ?)
         | H : valid_at _ _ _ = true |- _ =>
             apply valid_at_inv in H;
             destruct H as (? & ? & ? & ? & ? & ? & ? & ?)
         end.

Lemma has_parties_inv (code : AuthorizationCode) :
  has_parties code = true ->
  exists c u, client code = Some c /\ user code = Some u.
Proof.
  unfold has_parties.
  destruct (client code), (user code); try discriminate; eauto.
Qed.

Lemma bound_to_eqb (code : AuthorizationCode) (client_ c : Client) :
  client code = Some c ->
  String.eqb (id c) (id client_) = bound_to code client_.
Proof. unfold bound_to. intros ->. reflexivity. Qed.

Lemma strict_ne_false (a b : option string) :
  strict_ne a b = false <-> a = b.
Proof.
  unfold strict_ne. destruct (bool_decide_reflect (a = b)); simpl.
  - tauto.
  - split; [discriminate | tauto].
Qed.

Lemma strict_ne_true (a b : option string) :
  strict_ne a b = true <-> a <> b.
Proof.
  unfold strict_ne. destruct (bool_decide_reflect (a = b)); simpl.
  - split; [discriminate | tauto].
  - tauto.
Qed.

Lemma constructor_keeps_model (options : Options W) (this : Grant W) :
  constructor options = Ok this ->
  exists m get revoke save,
    this_model this = Some m /\
    Model.getAuthorizationCode m = Some get /\
    Model.revokeAuthorizationCode m = Some revoke /\
    Model.saveToken m = Some save.
Proof.
  unfold constructor, AbstractGrantType.
  destruct (super_check options); [discriminate|].
  destruct (model options) as [m|] eqn:Hm; [|discriminate].
  destruct (Model.getAuthorizationCode m) as [get|] eqn:Hget;
    [|discriminate].
  destruct (Model.revokeAuthorizationCode m) as [revoke|] eqn:Hrevoke;
    [|discriminate].
  destruct (Model.saveToken m) as [save|] eqn:Hsave; [|discriminate].
  simpl. intros [= <-]. simpl. eauto 10.
Qed.

(** C9, amended. Options without a model, or with a model that lacks one of
    the three capabilities, make the constructor throw: an
    [InvalidArgumentError] naming what is missing, unless the inherited
    constructor threw first.  Once the constructor has returned a grant type,
    the model has a truthy value for each capability; and when each of them
    is a function, [handle] never fails for a missing capability. *)
Theorem capabilities_checked_at_construction (options : Options W) :
  (lacks_capability options ->
     exists e, constructor options = Throw e /\
       (super_check options = None ->
          missing_capability e = true /\
          exists msg, e = InvalidArgumentError msg)) /\
  (forall this, constructor options = Ok this ->
     exists m,
       this_model this = Some m /\
       is_Some_b (Model.getAuthorizationCode m) = true /\
       is_Some_b (Model.revokeAuthorizationCode m) = true /\
       is_Some_b (Model.saveToken m) = true /\
       (callable_model m ->
        forall request client_ w e,
          outcome (handle this request client_) w = Throw e ->
          missing_capability e = false)).
Proof.
  split.
  - unfold lacks_capability, constructor, AbstractGrantType.
    destruct (super_check options) as [e|].
    + intros _. exists e. split; [reflexivity | discriminate].
    + destruct (model options) as [m|].
      * destruct (Model.getAuthorizationCode m);
          [destruct (Model.revokeAuthorizationCode m);
             [destruct (Model.saveToken m)|]|];
          simpl; intros H;
          try (destruct H as [H|[H|H]]; discriminate);
          eexists; (split; [reflexivity | intros _; split; [reflexivity | eauto]]).
      * intros _. eexists.
        split; [reflexivity | intros _; split; [reflexivity | eauto]].
  - intros this Hctor.
    destruct (constructor_keeps_model _ _ Hctor)
      as (m & get & revoke & save & Hm & Hget & Hrevoke & Hsave).
    exists m. rewrite Hget, Hrevoke, Hsave.
    repeat split; try reflexivity; try assumption.
    clear get revoke save Hget Hrevoke Hsave.
    intros (get & revoke & save & Hget & Hrevoke & Hsave)
      request client_ w e.
    wp_outcome. wp_run; intros [=]; subst; try reflexivity.
    all: match goal with
         | H : validateRedirectUri _ _ = Throw _ |- _ =>
             apply validateRedirectUri_throws in H as [? ->]; reflexivity
         end.
Qed.

(** C5. A fetched record without a PKCE challenge: a request that supplies a
    verifier is answered with [InvalidGrantError] whenever the record has its
    client, its user and a Date expiry; a request without a verifier gets the
    record back when every other check passes. *)
Theorem verifier_without_challenge (this : Grant W) (request : Request)
    (client_ : Client) (w w1 w2 : W) (code : AuthorizationCode) (t : Z) :
  looks_up this request w (Some code) w1 ->
  date_now w1 = (t, w2) ->
  truthy (codeChallenge code) = false ->
  (truthy (body request !! "code_verifier") = true ->
   structurally_invalid code = false ->
   exists msg,
     outcome (getAuthorizationCode this request client_) w
     = Throw (InvalidGrantError msg)) /\
  (truthy (body request !! "code_verifier") = true ->
   valid_at code client_ t = true ->
   outcome (getAuthorizationCode this request client_) w
   = Throw (InvalidGrantError "Invalid grant: code verifier is invalid")) /\
  (truthy (body request !! "code_verifier") = false ->
   valid_at code client_ t = true ->
   outcome (getAuthorizationCode this request client_) w = Ok code).
Proof.
  intros Hlook Hnow Hchallenge. unpack_lookup.
  split; [|split]; intros Hverifier Hvalid.
  - unfold structurally_invalid in Hvalid. rewrite Hchallenge in Hvalid.
    destruct (client code) as [c|] eqn:Hclient; [|discriminate].
    destruct (user code) as [u|] eqn:Huser; [|discriminate].
    destruct (instanceof_Date (expiresAt code)) eqn:Hdate; [|discriminate].
    wp_outcome. wp_run; eauto.
  - unpack_lookup. wp_outcome.
wp_run. reflexivity.
  - unpack_lookup. wp_outcome.
wp_run. reflexivity.
Qed.

(** C3. A record that passes every earlier check and carries a challenge with
    method [S256], a request that supplies a verifier: the record is returned
    exactly when the unpadded URL-safe base64 of the SHA-256 digest of the
    verifier is the stored challenge, and [InvalidGrantError] is thrown
    otherwise. *)
Theorem s256_challenge_verification (this : Grant W) (request : Request)
    (client_ : Client) (w w1 w2 : W) (code : AuthorizationCode) (t : Z)
    (verifier : string) :
  looks_up this request w (Some code) w1 ->
  date_now w1 = (t, w2) ->
  valid_at code client_ t = true ->
  truthy (codeChallenge code) = true ->
  codeChallengeMethod code = Some "S256"%string ->
  truthy_string (body request !! "code_verifier") = Some verifier ->
  let proof := StringUtil.base64URLEncode (Crypto.sha256 verifier) in
  (outcome (getAuthorizationCode this request client_) w = Ok code <->
     codeChallenge code = Some proof) /\
  (codeChallenge code <> Some proof ->
     outcome (getAuthorizationCode this request client_) w
     = Throw (InvalidGrantError "Invalid grant: code verifier is invalid")).
Proof.
  clear validateScope generateAccessToken generateRefreshToken
    getAccessTokenExpiresAt getRefreshTokenExpiresAt super_check.
  intros Hlook Hnow Hvalid Hchallenge Hmethod Hverifier proof.
  unpack_lookup.
  assert (Hplain : case_eq_lit (codeChallengeMethod code) "plain" = false)
    by (rewrite Hmethod; reflexivity).
  assert (Hs256 : case_eq_lit (codeChallengeMethod code) "S256" = true)
    by (rewrite Hmethod; reflexivity).
  clear Hmethod. subst proof.
  destruct (strict_ne (codeChallenge code)
              (Some (StringUtil.base64URLEncode (Crypto.sha256 verifier))))
    eqn:Hne.
  - assert (Hout : outcome (getAuthorizationCode this request client_) w
              = Throw (InvalidGrantError
                         "Invalid grant: code verifier is invalid")).
    { wp_outcome. wp_run. reflexivity. }
    apply strict_ne_true in Hne.
    rewrite Hout. split; [|reflexivity].
    split; [discriminate | contradiction].
  - assert (Hout : outcome (getAuthorizationCode this request client_) w
              = Ok code).
    { wp_outcome. wp_run. reflexivity. }
    apply strict_ne_false in Hne.
    rewrite Hout. split; [tauto | contradiction].
Qed.

(** C2, amended. A fetched record that has its client and its user and whose
    expiry is strictly before the current instant is answered with
    [InvalidGrantError]; an expiry equal to, or after, the current instant is
    never reported as expired. *)
Theorem expired_code_rejected (this : Grant W) (request : Request)
    (client_ : Client) (w w1 w2 : W) (code : AuthorizationCode) (t e : Z) :
  looks_up this request w (Some code) w1 ->
  date_now w1 = (t, w2) ->
  has_parties code = true ->
  expiresAt code = DateAt e ->
  ((e < t)%Z ->
     exists msg,
       outcome (getAuthorizationCode this request client_) w
       = Throw (InvalidGrantError msg)) /\
  ((e < t)%Z -> bound_to code client_ = true ->
     outcome (getAuthorizationCode this request client_) w
     = Throw (InvalidGrantError
                "Invalid grant: authorization code has expired")) /\
  ((t <= e)%Z ->
     outcome (getAuthorizationCode this request client_) w
     <> Throw (InvalidGrantError
                 "Invalid grant: authorization code has expired")).
Proof.
  intros Hlook Hnow Hparties Hexp. unpack_lookup.
  destruct (has_parties_inv _ Hparties) as (c & u & Hclient & Huser).
  pose proof (bound_to_eqb code client_ c Hclient) as Hbound.
  assert (Hdate : instanceof_Date (expiresAt code) = true)
    by (rewrite Hexp; reflexivity).
  assert (Hlt : js_lt (getTime (expiresAt code)) t = Z.ltb e t)
    by (rewrite Hexp; reflexivity).
  clear Hexp.
  split; [|split].
  - intros He. apply Z.ltb_lt in He. rewrite He in Hlt.
    wp_outcome. wp_run; eauto.
  - intros He Hb. apply Z.ltb_lt in He. rewrite He in Hlt.
    rewrite Hb in Hbound.
    wp_outcome. wp_run. reflexivity.
  - intros He. apply Z.ltb_ge in He. rewrite He in Hlt.
    wp_outcome. wp_run; discriminate.
Qed.

(** C4, amended. A nonexistent code, a code of another client and an expired
    code are all refused with [InvalidGrantError]. The first two carry the
    same message; the expired code carries a message of its own. *)
Theorem refusals_share_kind (why1 why2 : Refusal)
    (this1 this2 : Grant W) (request1 request2 : Request)
    (client1 client2 : Client) (w1 w2 : W) :
  refused why1 this1 request1 client1 w1 ->
  refused why2 this2 request2 client2 w2 ->
  exists msg1 msg2,
    outcome (getAuthorizationCode this1 request1 client1) w1
    = Throw (InvalidGrantError msg1) /\
    outcome (getAuthorizationCode this2 request2 client2) w2
    = Throw (InvalidGrantError msg2) /\
    (msg1 = msg2 <-> is_Expired why1 = is_Expired why2).
Proof.
  assert (Hone : forall why this request client_ w,
             refused why this request client_ w ->
             outcome (getAuthorizationCode this request client_) w
             = Throw (InvalidGrantError
                        (if is_Expired why
                         then "Invalid grant: authorization code has expired"
                         else "Invalid grant: authorization code is invalid"))).
  { intros why this request client_ w Hwhy.
    destruct why; cbn [refused is_Expired] in *.
    - destruct Hwhy as (w' & Hlook). unpack_lookup.
      wp_outcome. wp_run. reflexivity.
    - destruct Hwhy as (code & w' & Hlook & Hparties & Hbound).
      unpack_lookup.
      destruct (has_parties_inv _ Hparties) as (c & u & Hclient & Huser).
      rewrite <- (bound_to_eqb code client_ c Hclient) in Hbound.
      wp_outcome. wp_run. reflexivity.
    - destruct Hwhy
        as (code & w' & t & w'' & e & Hlook & Hnow & Hparties & Hbound
            & Hexp & He).
      unpack_lookup.
      destruct (has_parties_inv _ Hparties) as (c & u & Hclient & Huser).
      rewrite <- (bound_to_eqb code client_ c Hclient) in Hbound.
      assert (Hdate : instanceof_Date (expiresAt code) = true)
        by (rewrite Hexp; reflexivity).
      assert (Hlt : js_lt (getTime (expiresAt code)) t = true)
        by (rewrite Hexp; apply Z.ltb_lt; exact He).
      clear Hexp.
      wp_outcome. wp_run. reflexivity. }
  intros H1 H2.
  rewrite (Hone _ _ _ _ _ H1), (Hone _ _ _ _ _ H2).
  do 2 eexists. split; [reflexivity|]. split; [reflexivity|].
  destruct (is_Expired why1), (is_Expired why2);
    split; intros; try reflexivity; discriminate.
Qed.

(** C7, amended. [getAuthorizationCode] throws [ServerError] only when the
    store has answered with a structurally invalid record, whatever the
    request and the client are; and it does throw it when the defect is the
    first violation met: a missing client; a missing user; an expiry that is
    not a Date, on a record bound to the client; an unknown challenge method,
    on a record that passes every earlier check, with a verifier supplied. *)
Theorem server_error_only_for_invalid_records (this : Grant W)
    (request : Request) (client_ : Client) (w : W) :
  (forall msg,
     outcome (getAuthorizationCode this request client_) w
     = Throw (ServerError msg) ->
     exists code w1,
       looks_up this request w (Some code) w1 /\
       structurally_invalid code = true) /\
  (forall code w1,
     looks_up this request w (Some code) w1 ->
     (client code = None ->
        exists msg,
          outcome (getAuthorizationCode this request client_) w
          = Throw (ServerError msg)) /\
     (is_Some_b (client code) = true -> user code = None ->
        exists msg,
          outcome (getAuthorizationCode this request client_) w
          = Throw (ServerError msg)) /\
     (has_parties code = true -> bound_to code client_ = true ->
      instanceof_Date (expiresAt code) = false ->
        exists msg,
          outcome (getAuthorizationCode this request client_) w
          = Throw (ServerError msg)) /\
     (forall t w2,
        date_now w1 = (t, w2) ->
        valid_at code client_ t = true ->
        truthy (codeChallenge code) = true ->
        truthy (body request !! "code_verifier") = true ->
        known_method code = false ->
        exists msg,
          outcome (getAuthorizationCode this request client_) w
          = Throw (ServerError msg))).
Proof.
  split.
  - intros msg. wp_outcome. wp_run; intros [=]; subst.
    all: eexists _, _; split;
      [ unfold looks_up; eauto 10
      | unfold structurally_invalid, known_method;
        repeat match goal with
               | H : negb _ = _ |- _ => apply negb_true_iff in H
               | H : _ = _ |- _ => rewrite H
               end;
        reflexivity ].
  - intros code w1 Hlook. unpack_lookup.
    split; [|split; [|split]].
    + intros Hclient. wp_outcome. wp_run. eauto.
    + intros Hclient Huser.
      destruct (client code) as [c|] eqn:Hc; [|discriminate].
      wp_outcome. wp_run. eauto.
    + intros Hparties Hbound Hdate.
      destruct (has_parties_inv _ Hparties) as (c & u & Hclient & Huser).
      rewrite <- (bound_to_eqb code client_ c Hclient) in Hbound.
      wp_outcome. wp_run. eauto.
    + intros t w2 Hnow Hvalid Hchallenge Hverifier Hmethod.
      unpack_lookup.
      unfold known_method in Hmethod. apply orb_false_elim in Hmethod.
      destruct Hmethod as [Hplain Hs256].
      unfold truthy in Hverifier.
      destruct (body request !! "code_verifier") as [v|] eqn:Hv;
        [|discriminate].
      assert (Hstring : truthy_string (Some v) = Some v).
      { unfold truthy_string.
        destruct (String.eqb v ""); [discriminate | reflexivity]. }
      wp_outcome. wp_run. eauto.
Qed.

(** Split a membership in an explicit trace into its cases, dropping the
    events of another kind. *)
Ltac in_trace H :=
  cbn [In log] in H;
  repeat match type of H with
         | _ \/ _ => destruct H as [H|H]
         end;
  try discriminate H; try contradiction;
  try (injection H as ?; subst).

(** C10. In [saveToken] both generators are called with the scope that was
    passed in, not with the scope that [validateScope] resolved; the resolved
    scope goes to the [scope] field of the token handed to the model, and
    nowhere else. *)
Theorem generators_receive_requested_scope (this : Grant W)
    (user_ : option User) (client_ : Client) (authorizationCode_ : string)
    (scope_ : string) (w : W) :
  let tr := trace (saveToken this user_ client_ authorizationCode_ scope_) w in
  (forall c u s res,
     In (EvGenerateAccessToken c u s res) tr
     \/ In (EvGenerateRefreshToken c u s res) tr ->
     s = scope_) /\
  (forall token c u res,
     In (EvSaveToken token c u res) tr ->
     exists resolved,
       In (EvValidateScope user_ client_ scope_ (Resolved resolved)) tr /\
       Token.scope token = resolved) /\
  (forall result,
     outcome (saveToken this user_ client_ authorizationCode_ scope_) w
     = Ok result ->
     exists resolved accessToken refreshToken accessExpiry refreshExpiry,
       tr =
       [ EvValidateScope user_ client_ scope_ (Resolved resolved);
         EvGenerateAccessToken client_ user_ scope_ (Resolved accessToken);
         EvGenerateRefreshToken client_ user_ scope_ (Resolved refreshToken);
         EvGetAccessTokenExpiresAt (Resolved accessExpiry);
         EvGetRefreshTokenExpiresAt (Resolved refreshExpiry);
         EvSaveToken
           (Token.mk accessToken authorizationCode_ accessExpiry
              refreshToken refreshExpiry resolved)
           client_ user_ (Resolved result) ]).
Proof.
  intros tr. subst tr. split; [|split].
  - intros c u s res. wp_outcome. wp_run.
    all: intros [H|H]; in_trace H; reflexivity.
  - intros token c u res. wp_outcome. wp_run.
    all: intros H; in_trace H.
    all: eexists; split; [cbn [In]; eauto 10 | reflexivity].
  - intros result. wp_outcome. wp_run.
    all: intros [=]; subst.
    eauto 10.
Qed.

(** What [getAuthorizationCode] leaves in the log: the lookup, if it got
    that far; and when it returns a record, the lookup that answered it. *)
Lemma getAuthorizationCode_log (this : Grant W) (request : Request)
    (client_ : Client) (w : W) :
  match outcome (getAuthorizationCode this request client_) w with
  | Ok code =>
      exists c,
        trace (getAuthorizationCode this request client_) w
        = [EvGetAuthorizationCode c (Resolved (Some code))]
  | Throw _ =>
      trace (getAuthorizationCode this request client_) w = []
      \/ exists c res,
           trace (getAuthorizationCode this request client_) w
           = [EvGetAuthorizationCode c res]
  end.
Proof. wp_outcome. wp_run; eauto. Qed.

(** Enter [handle] on a request and a client, and run
    [getAuthorizationCode] as a whole. *)
Ltac wp_handle req cl code Hcode :=
  wp_outcome; unfold handle;
  apply wp_bind_run;
  let r := fresh "r" in
  let st := fresh "st" in
  let Hrun := fresh "Hrun" in
  let Hlog := fresh "Hlog" in
  intros r st Hrun;
  lazymatch type of Hrun with
  | getAuthorizationCode ?this _ _ {| world := ?w; log := _ |} = _ =>
      pose proof (getAuthorizationCode_log this req cl w) as Hlog;
      unfold outcome, trace, exec in Hlog;
      rewrite Hrun in Hlog; cbn [fst snd] in Hlog;
      destruct r as [code|];
      [ assert (Hcode : outcome (getAuthorizationCode this req cl) w = Ok code)
          by (unfold outcome, exec; rewrite Hrun; reflexivity);
        destruct Hlog as [? Hlog]
      | destruct Hlog as [Hlog|(? & ? & Hlog)] ];
      clear Hrun; destruct st; cbn [log] in Hlog; subst;
      cbv beta; cbn [log]
  end.

(** C8. When [handle] succeeds, the token handed to the model's [saveToken]
    carries the code string of the record that was fetched and revoked, and
    the scope that [validateScope] resolved. *)
Theorem saved_token_refers_to_code (this : Grant W)
    (request : option Request) (client_ : option Client) (w : W)
    (result : Token) :
  outcome (handle this request client_) w = Ok result ->
  exists req cl c code resolved token rest,
    request = Some req /\ client_ = Some cl /\
    trace (handle this request client_) w
    = EvGetAuthorizationCode c (Resolved (Some code))
      :: EvRevokeAuthorizationCode code (Resolved true)
      :: EvValidateScope (user code) cl (scope code) (Resolved resolved)
      :: rest ++ [EvSaveToken token cl (user code) (Resolved result)] /\
    Token.authorizationCode token = authorizationCode code /\
    Token.scope token = resolved.
Proof.
  destruct request as [req|]; [|discriminate].
  destruct client_ as [cl|]; [|discriminate].
  wp_handle req cl code Hcode; try (intros [=]; fail).
  wp_run; intros [=]; subst.
  eexists req, cl, _, code, _, _, [_; _; _; _].
  repeat split; reflexivity.
Qed.

(** C1. In every run of [handle], the model's [saveToken] is called only
    after [revokeAuthorizationCode] has been called on the validated code and
    has answered with a truthy value; a revocation is only ever asked for the
    validated code; and when it answers with a falsy value, [handle] throws
    [InvalidGrantError] without any token having been generated or saved. *)
Theorem code_revoked_before_token_saved (this : Grant W)
    (request : option Request) (client_ : option Client) (w : W) :
  let tr := trace (handle this request client_) w in
  (forall token c u res,
     In (EvSaveToken token c u res) tr ->
     exists req cl code pre mid,
       request = Some req /\ client_ = Some cl /\
       outcome (getAuthorizationCode this req cl) w = Ok code /\
       tr = pre ++ EvRevokeAuthorizationCode code (Resolved true)
                :: mid ++ [EvSaveToken token c u res]) /\
  (forall code res,
     In (EvRevokeAuthorizationCode code res) tr ->
     exists req cl,
       request = Some req /\ client_ = Some cl /\
       outcome (getAuthorizationCode this req cl) w = Ok code /\
       validateRedirectUri req code = Ok tt) /\
  (forall code,
     In (EvRevokeAuthorizationCode code (Resolved false)) tr ->
     outcome (handle this request client_) w
     = Throw (InvalidGrantError "Invalid grant: authorization code is invalid")
     /\ forallb (fun ev => negb (issues_token ev)) tr = true).
Proof.
  intros tr. subst tr.
  destruct request as [req|];
    [|repeat split; intros; exfalso; cbn in *; assumption].
  destruct client_ as [cl|];
    [|repeat split; intros; exfalso; cbn in *; assumption].
  split; [|split].
  - intros token c u res.
    wp_handle req cl code Hcode;
      try (intros H; in_trace H; fail).
    wp_run.
    all: intros H; in_trace H.
    all: eexists _, _, _, [_], [_; _; _; _; _].
    all: repeat split; try reflexivity; eassumption.
  - intros code0 res.
    wp_handle req cl code Hcode;
      try (intros H; in_trace H; fail).
    wp_run.
    all: intros H; in_trace H.
    all: eexists _, _; repeat split; try eassumption.
    all: match goal with
         | H : validateRedirectUri _ _ = Ok ?u |- _ => destruct u; exact H
         end.
  - intros code0.
    wp_handle req cl code Hcode;
      try (intros H; in_trace H; fail).
    wp_run.
    all: intros H; in_trace H.
    split; reflexivity.
Qed.

(** ** Further properties of [getAuthorizationCode] *)

Lemma truthy_string_None (v : option string) :
  truthy v = false -> truthy_string v = None.
Proof.
  unfold truthy, truthy_string. destruct v as [s|]; [|reflexivity].
  destruct (String.eqb s ""); [reflexivity | discriminate].
Qed.

Lemma truthy_string_Some (v : option string) (s : string) :
  truthy_string v = Some s -> truthy v = true /\ v = Some s.
Proof.
  unfold truthy, truthy_string. destruct v as [x|]; [|discriminate].
  destruct (String.eqb x ""); [discriminate|]. intros [= ->]. auto.
Qed.

(** X1. A request whose [code] is missing or empty, or is not made of the
    allowed characters, is refused with [InvalidRequestError] before the store
    is consulted: no collaborator is called and the world is left as it was.
    And [getAuthorizationCode] throws [InvalidRequestError] for no other
    reason. *)
Theorem malformed_code_never_reaches_store (this : Grant W)
    (request : Request) (client_ : Client) (w : W) :
  (truthy (body request !! "code") = false ->
     exec (getAuthorizationCode this request client_) w
     = (Throw (InvalidRequestError "Missing parameter: `code`"),
        {| world := w; log := [] |})) /\
  (forall c,
     truthy_string (body request !! "code") = Some c ->
     is_vschar c = false ->
     exec (getAuthorizationCode this request client_) w
     = (Throw (InvalidRequestError "Invalid parameter: `code`"),
        {| world := w; log := [] |})) /\
  (forall msg,
     outcome (getAuthorizationCode this request client_) w
     = Throw (InvalidRequestError msg) ->
     trace (getAuthorizationCode this request client_) w = [] /\
     (truthy (body request !! "code") = false
      \/ exists c,
           truthy_string (body request !! "code") = Some c /\
           is_vschar c = false)).
Proof.
  split; [|split].
  - intros H. apply truthy_string_None in H.
    unfold exec, getAuthorizationCode. rewrite H. reflexivity.
  - intros c Hc Hv.
    unfold exec, getAuthorizationCode. rewrite Hc, Hv. reflexivity.
  - intros msg. wp_outcome. wp_run; intros [=]; subst.
    + split; [reflexivity|]. right. eauto.
    + split; [reflexivity|]. left.
      destruct (truthy (body request !! "code")) eqn:Ht; [|reflexivity].
      unfold truthy, truthy_string in *.
      destruct (body request !! "code") as [x|]; [|discriminate].
      destruct (String.eqb x ""); discriminate.
Qed.

(** X2. [getAuthorizationCode] calls no collaborator but the store's lookup,
    at most once, and for the very [code] of the request body, which is then
    non-empty and made of the allowed characters. *)
Theorem lookup_uses_request_code (this : Grant W) (request : Request)
    (client_ : Client) (w : W) :
  trace (getAuthorizationCode this request client_) w = []
  \/ exists c res,
       trace (getAuthorizationCode this request client_) w
       = [EvGetAuthorizationCode c res] /\
       truthy_string (body request !! "code") = Some c /\
       is_vschar c = true.
Proof.
  wp_outcome. wp_run.
  all: first [left; reflexivity | right; eauto 10].
Qed.

(** X3. A record that passes every earlier check and carries a challenge
    with method [plain], a request that supplies a verifier: the record is
    returned exactly when the verifier is the stored challenge, character for
    character, and [InvalidGrantError] is thrown otherwise. *)
Theorem plain_challenge_verification (this : Grant W) (request : Request)
    (client_ : Client) (w w1 w2 : W) (code : AuthorizationCode) (t : Z)
    (verifier : string) :
  looks_up this request w (Some code) w1 ->
  date_now w1 = (t, w2) ->
  valid_at code client_ t = true ->
  truthy (codeChallenge code) = true ->
  codeChallengeMethod code = Some "plain"%string ->
  truthy_string (body request !! "code_verifier") = Some verifier ->
  (outcome (getAuthorizationCode this request client_) w = Ok code <->
     codeChallenge code = Some verifier) /\
  (codeChallenge code <> Some verifier ->
     outcome (getAuthorizationCode this request client_) w
     = Throw (InvalidGrantError "Invalid grant: code verifier is invalid")).
Proof.
  clear validateScope generateAccessToken generateRefreshToken
    getAccessTokenExpiresAt getRefreshTokenExpiresAt super_check.
  intros Hlook Hnow Hvalid Hchallenge Hmethod Hverifier.
  unpack_lookup.
  assert (Hplain : case_eq_lit (codeChallengeMethod code) "plain" = true)
    by (rewrite Hmethod; reflexivity).
  clear Hmethod.
  destruct (strict_ne (codeChallenge code) (Some verifier)) eqn:Hne.
  - assert (Hout : outcome (getAuthorizationCode this request client_) w
              = Throw (InvalidGrantError
                         "Invalid grant: code verifier is invalid")).
    { wp_outcome. wp_run. reflexivity. }
    apply strict_ne_true in Hne.
    rewrite Hout. split; [|reflexivity].
    split; [discriminate | contradiction].
  - assert (Hout : outcome (getAuthorizationCode this request client_) w
              = Ok code).
    { wp_outcome. wp_run. reflexivity. }
    apply strict_ne_false in Hne.
    rewrite Hout. split; [tauto | contradiction].
Qed.

(** X4. A record that passes every earlier check and carries a challenge, a
    request without a verifier (or with an empty one): [InvalidGrantError],
    whatever the method is, known or not. *)
Theorem challenge_requires_verifier (this : Grant W) (request : Request)
    (client_ : Client) (w w1 w2 : W) (code : AuthorizationCode) (t : Z) :
  looks_up this request w (Some code) w1 ->
  date_now w1 = (t, w2) ->
  valid_at code client_ t = true ->
  truthy (codeChallenge code) = true ->
  truthy (body request !! "code_verifier") = false ->
  outcome (getAuthorizationCode this request client_) w
  = Throw (InvalidGrantError "Missing parameter: `code_verifier`").
Proof.
  intros Hlook Hnow Hvalid Hchallenge Hverifier.
  apply truthy_string_None in Hverifier.
  unpack_lookup. wp_outcome. wp_run. reflexivity.
Qed.

(** X5. A record bound to the client and not expired whose stored redirect
    URI is not a valid URI is refused with [InvalidGrantError], before any
    PKCE verification and whatever the request says about redirect URIs. *)
Theorem stored_redirect_uri_must_be_valid (this : Grant W)
    (request : Request) (client_ : Client) (w w1 w2 : W)
    (code : AuthorizationCode) (t : Z) :
  looks_up this request w (Some code) w1 ->
  date_now w1 = (t, w2) ->
  has_parties code = true ->
  bound_to code client_ = true ->
  instanceof_Date (expiresAt code) = true ->
  expired_at code t = false ->
  truthy (redirectUri code) = true ->
  is_uri (redirectUri code) = false ->
  outcome (getAuthorizationCode this request client_) w
  = Throw (InvalidGrantError
             "Invalid grant: `redirect_uri` is not a valid URI").
Proof.
  intros Hlook Hnow Hparties Hbound Hdate Hexp Hstored Huri.
  unpack_lookup.
  destruct (has_parties_inv _ Hparties) as (c & u & Hclient & Huser).
  rewrite <- (bound_to_eqb code client_ c Hclient) in Hbound.
  unfold expired_at in Hexp.
  assert (Hguard : truthy (redirectUri code)
                   && negb (is_uri (redirectUri code)) = true)
    by (rewrite Hstored, Huri; reflexivity).
  clear Hstored Huri.
  wp_outcome. wp_run. reflexivity.
Qed.

(** X6. An expiry that is a Date holding NaN never expires: such a record,
    when it passes the other checks, is returned at every instant. *)
Theorem nan_expiry_never_expires (this : Grant W) (request : Request)
    (client_ : Client) (w w1 w2 : W) (code : AuthorizationCode) (t : Z) :
  looks_up this request w (Some code) w1 ->
  date_now w1 = (t, w2) ->
  expiresAt code = InvalidDate ->
  has_parties code = true ->
  bound_to code client_ = true ->
  redirect_ok code = true ->
  truthy (codeChallenge code) = false ->
  truthy (body request !! "code_verifier") = false ->
  outcome (getAuthorizationCode this request client_) w = Ok code.
Proof.
  intros Hlook Hnow Hnan Hparties Hbound Hredirect Hchallenge Hverifier.
  unpack_lookup.
  destruct (has_parties_inv _ Hparties) as (c & u & Hclient & Huser).
  rewrite <- (bound_to_eqb code client_ c Hclient) in Hbound.
  assert (Hdate : instanceof_Date (expiresAt code) = true)
    by (rewrite Hnan; reflexivity).
  assert (Hlt : js_lt (getTime (expiresAt code)) t = false)
    by (rewrite Hnan; reflexivity).
  assert (Hguard : truthy (redirectUri code)
                   && negb (is_uri (redirectUri code)) = false).
  { unfold redirect_ok in Hredirect.
    destruct (truthy (redirectUri code)), (is_uri (redirectUri code));
      try reflexivity; discriminate. }
  clear Hnan Hredirect.
  wp_outcome. wp_run. reflexivity.
Qed.

Lemma case_eq_lit_true (v : option string) (lit : string) :
  case_eq_lit v lit = true -> v = Some lit.
Proof. unfold case_eq_lit. apply bool_decide_eq_true_1. Qed.

Lemma valid_at_intro (code : AuthorizationCode) (client_ c : Client) (t : Z) :
  client code = Some c ->
  is_Some_b (user code) = true ->
  String.eqb (id c) (id client_) = true ->
  instanceof_Date (expiresAt code) = true ->
  js_lt (getTime (expiresAt code)) t = false ->
  truthy (redirectUri code) && negb (is_uri (redirectUri code)) = false ->
  valid_at code client_ t = true.
Proof.
  unfold valid_at, has_parties, bound_to, expired_at, redirect_ok.
  intros -> -> -> -> ->.
  destruct (truthy (redirectUri code)), (is_uri (redirectUri code));
    try reflexivity; discriminate.
Qed.

(** X7. [getAuthorizationCode] returns a record exactly when the store
    answered with that record for the code of the request, the record has its
    client and user, is bound to the presented client, is not expired at the
    instant read from the clock, has no stored redirect URI or a valid one,
    and possession is proved. What it returns is the record as the store
    gave it. *)
Theorem returned_record_is_valid (this : Grant W) (request : Request)
    (client_ : Client) (w : W) (code : AuthorizationCode) :
  outcome (getAuthorizationCode this request client_) w = Ok code <->
  exists w1 t w2,
    looks_up this request w (Some code) w1 /\
    date_now w1 = (t, w2) /\
    valid_at code client_ t = true /\
    pkce_proved code request.
Proof.
  clear validateScope generateAccessToken generateRefreshToken
    getAccessTokenExpiresAt getRefreshTokenExpiresAt super_check.
  split.
  - wp_outcome. wp_run; intros [=]; subst.
    all: eexists _, _, _;
      split; [unfold looks_up; eauto 10|];
      split; [eassumption|];
      split; [eapply valid_at_intro; eassumption|].
    + right. split; [assumption|]. eexists. split; [eassumption|].
      left. split; [apply case_eq_lit_true; assumption|].
      apply strict_ne_false; assumption.
    + right. split; [assumption|]. eexists. split; [eassumption|].
      right. split; [apply case_eq_lit_true; assumption|].
      apply strict_ne_false; assumption.
    + left. split; assumption.
  - intros (w1 & t & w2 & Hlook & Hnow & Hvalid & Hpkce).
    unpack_lookup.
    destruct Hpkce
      as [[Hc Hv] | [Hc (v & Hv & [[Hm He] | [Hm He]])]].
    + wp_outcome. wp_run. reflexivity.
    + assert (Hplain : case_eq_lit (codeChallengeMethod code) "plain" = true)
        by (rewrite Hm; reflexivity).
      apply strict_ne_false in He. clear Hm.
      wp_outcome. wp_run. reflexivity.
    + assert (Hplain : case_eq_lit (codeChallengeMethod code) "plain" = false)
        by (rewrite Hm; reflexivity).
      assert (Hs256 : case_eq_lit (codeChallengeMethod code) "S256" = true)
        by (rewrite Hm; reflexivity).
      apply strict_ne_false in He. clear Hm.
      wp_outcome. wp_run. reflexivity.
Qed.

(** ** Further properties of [validateRedirectUri] and the constructor *)

(** X8. The redirect URI of the body wins over the one of the query: when
    the body has a non-empty one, the query is not looked at; when the body
    has none, or an empty one, the query decides. *)
Theorem body_redirect_uri_preferred (request request' : Request)
    (code : AuthorizationCode) :
  (truthy (body request !! "redirect_uri") = true ->
   body request' !! "redirect_uri" = body request !! "redirect_uri" ->
   validateRedirectUri request' code = validateRedirectUri request code) /\
  (truthy (body request !! "redirect_uri") = false ->
   truthy (body request' !! "redirect_uri") = false ->
   query request' !! "redirect_uri" = query request !! "redirect_uri" ->
   validateRedirectUri request' code = validateRedirectUri request code).
Proof.
  unfold validateRedirectUri, js_or. split.
  - intros Hb Hsame. rewrite Hsame, Hb. reflexivity.
  - intros Hb Hb' Hsame. rewrite Hb, Hb', Hsame. reflexivity.
Qed.

(** X9. The constructor returns a grant type exactly when the inherited
    constructor accepts the options and the model has the three
    capabilities, and the grant type then holds that model. When several
    capabilities are missing, the error names the first of
    [getAuthorizationCode], [revokeAuthorizationCode], [saveToken]. *)
Theorem constructor_succeeds_iff (options : Options W) (this : Grant W) :
  (constructor options = Ok this <->
     super_check options = None /\
     exists m,
       model options = Some m /\
       is_Some_b (Model.getAuthorizationCode m) = true /\
       is_Some_b (Model.revokeAuthorizationCode m) = true /\
       is_Some_b (Model.saveToken m) = true /\
       this = {| this_model := Some m |}) /\
  (forall m,
     super_check options = None ->
     model options = Some m ->
     (Model.getAuthorizationCode m = None ->
        constructor options
        = Throw (InvalidArgumentError
            "Invalid argument: model does not implement `getAuthorizationCode()`"))
     /\
     (is_Some_b (Model.getAuthorizationCode m) = true ->
      Model.revokeAuthorizationCode m = None ->
        constructor options
        = Throw (InvalidArgumentError
            "Invalid argument: model does not implement `revokeAuthorizationCode()`"))
     /\
     (is_Some_b (Model.getAuthorizationCode m) = true ->
      is_Some_b (Model.revokeAuthorizationCode m) = true ->
      Model.saveToken m = None ->
        constructor options
        = Throw (InvalidArgumentError
            "Invalid argument: model does not implement `saveToken()`"))).
Proof.
  unfold constructor, AbstractGrantType. split.
  - split.
    + destruct (super_check options); [discriminate|].
      destruct (model options) as [m|]; [|discriminate].
      destruct (Model.getAuthorizationCode m) eqn:Hget; [|discriminate].
      destruct (Model.revokeAuthorizationCode m) eqn:Hrevoke;
        [|discriminate].
      destruct (Model.saveToken m) eqn:Hsave; [|discriminate].
      cbn. intros [= <-]. split; [reflexivity|]. exists m.
      rewrite Hget, Hrevoke, Hsave. repeat split; reflexivity.
    + intros (-> & m & -> & Hget & Hrevoke & Hsave & ->).
      rewrite Hget, Hrevoke, Hsave. reflexivity.
  - intros m -> ->. repeat split.
    + intros ->. reflexivity.
    + intros Hget ->. rewrite Hget. reflexivity.
    + intros Hget Hrevoke ->. rewrite Hget, Hrevoke. reflexivity.
Qed.

(** ** Further properties of [handle] and [saveToken] *)

(** Name the events before the last one of an explicit trace. *)
Ltac last_of_trace :=
  first
    [ exists []; reflexivity
    | eexists [_]; reflexivity
    | eexists [_; _]; reflexivity
    | eexists [_; _; _]; reflexivity
    | eexists [_; _; _; _]; reflexivity
    | eexists [_; _; _; _; _]; reflexivity
    | eexists [_; _; _; _; _; _]; reflexivity
    | eexists [_; _; _; _; _; _; _]; reflexivity ].

(** X10. [handle] throws [InvalidArgumentError] exactly when the request or
    the client is missing: the request is looked at first, and no
    collaborator has been called by then. *)
Theorem handle_argument_errors (this : Grant W) (request : option Request)
    (client_ : option Client) (w : W) (msg : string) :
  outcome (handle this request client_) w = Throw (InvalidArgumentError msg)
  <->
  (request = None /\ msg = "Missing parameter: `request`"%string)
  \/ (request <> None /\ client_ = None /\
      msg = "Missing parameter: `client`"%string).
Proof.
  split.
  - wp_outcome. wp_run; intros [=]; subst.
    all: try (left; split; reflexivity).
    all: try (right; split; [discriminate | split; reflexivity]).
    all: match goal with
         | H : validateRedirectUri _ _ = Throw _ |- _ =>
             apply validateRedirectUri_throws in H as [? [=]]
         end.
  - intros [[-> ->] | (Hreq & -> & ->)].
    + reflexivity.
    + destruct request; [reflexivity | contradiction].
Qed.

(** X11. Whenever [handle] throws an error of the grant type's own
    ([InvalidArgumentError], [InvalidRequestError], [InvalidGrantError],
    [ServerError]), the code has not been consumed: no revocation has
    answered with a truthy value, and no token has been generated or saved.
    Every validation is over before the code is revoked. *)
Theorem own_errors_leave_code_unconsumed (this : Grant W)
    (request : option Request) (client_ : option Client) (w : W)
    (e : Error) :
  outcome (handle this request client_) w = Throw e ->
  own_error e = true ->
  (forall code,
     ~ In (EvRevokeAuthorizationCode code (Resolved true))
         (trace (handle this request client_) w)) /\
  forallb (fun ev => negb (issues_token ev))
    (trace (handle this request client_) w)
  = true.
Proof.
  wp_outcome. wp_run; intros [=] Hown; subst; try discriminate Hown.
  all: split; [intros code0 Hin; in_trace Hin | reflexivity].
Qed.

(** X12. When the record is valid and the redirect URI of the request is
    not, [handle] throws what [validateRedirectUri] throws and has called the
    store for the lookup only: the code is not revoked, and can still be
    exchanged by a correct request. *)
Theorem failed_redirect_check_keeps_code (this : Grant W)
    (request : Request) (client_ : Client) (w : W)
    (code : AuthorizationCode) (e : Error) :
  outcome (getAuthorizationCode this request client_) w = Ok code ->
  validateRedirectUri request code = Throw e ->
  outcome (handle this (Some request) (Some client_)) w = Throw e /\
  trace (handle this (Some request) (Some client_)) w
  = trace (getAuthorizationCode this request client_) w.
Proof.
  intros Hok Hredirect.
  assert (Hexec : exec (handle this (Some request) (Some client_)) w
                  = (Throw e,
                     snd (exec (getAuthorizationCode this request client_) w))).
  { unfold outcome, exec in *. unfold handle, bind, lift.
    destruct (getAuthorizationCode this request client_
                {| world := w; log := [] |}) as [r st].
    cbn [fst snd] in *. subst r. rewrite Hredirect. reflexivity. }
  unfold outcome, trace. rewrite Hexec. split; reflexivity.
Qed.

(** X13. In every run of [handle] the collaborators are called in one fixed
    order, each at most once: lookup, revocation, scope resolution, access
    token, refresh token, access expiry, refresh expiry, persistence. A run
    stops somewhere along that list. *)
Theorem handle_calls_in_order (this : Grant W) (request : option Request)
    (client_ : option Client) (w : W) :
  exists rest,
    handle_steps
    = map step_of (trace (handle this request client_) w) ++ rest.
Proof.
  wp_outcome. wp_run.
  all: eexists; reflexivity.
Qed.

(** X14. A collaborator that fails ends the run of [handle]: when an awaited
    call rejects or throws, or an expiry getter throws, that call is the last
    one made (nothing is retried, nothing is undone) and [handle] throws that
    failure.  The expiry getters are not awaited: whatever the first returns,
    a promise that rejects included, the second is called; and whatever the
    second returns is stored in the token that the model's [saveToken] is
    called with, if that capability can be called at all. *)
Theorem rejection_ends_handle (this : Grant W) (request : option Request)
    (client_ : option Client) (w : W) :
  let tr := trace (handle this request client_) w in
  (forall ev reason,
     In ev tr ->
     rejection ev = Some reason ->
     outcome (handle this request client_) w
     = Throw (CollaboratorError reason) /\
     exists before, tr = before ++ [ev]) /\
  (forall stamp,
     In (EvGetAccessTokenExpiresAt (Resolved stamp)) tr ->
     exists res, In (EvGetRefreshTokenExpiresAt res) tr) /\
  (forall stamp,
     In (EvGetRefreshTokenExpiresAt (Resolved stamp)) tr ->
     (exists token c u res,
        In (EvSaveToken token c u res) tr /\
        Token.refreshTokenExpiresAt token = stamp)
     \/ exists msg,
          outcome (handle this request client_) w = Throw (TypeError msg)).
Proof.
  intros tr. subst tr. split; [|split].
  - intros ev reason. wp_outcome. wp_run.
    all: intros Hin Hrej; in_trace Hin; subst.
    all: cbn [rejection] in Hrej; try discriminate Hrej.
    all: injection Hrej as <-.
    all: split; [reflexivity | last_of_trace].
  - intros stamp. wp_outcome. wp_run.
    all: intros Hin; in_trace Hin.
    all: eexists; cbn [In]; eauto 10.
  - intros stamp. wp_outcome. wp_run.
    all: intros Hin; in_trace Hin.
    all: first
           [ right; eexists; reflexivity
           | left; eexists _, _, _, _;
             split; [cbn [In]; eauto 12 | reflexivity] ].
Qed.

(** X15. The same holds of [saveToken] on its own: scope resolution, the two
    generators, the two expiry getters and the persistence are called in that
    order; a rejection of an awaited call, or a throw of an expiry getter, is
    the last call and the outcome, so that a scope that the policy rejects is
    never passed to a generator.  What the expiry getters return is not
    awaited: once both have returned, whatever they returned, promises that
    reject included, is stored as it is in the token that the model's
    [saveToken] is called with, if that capability can be called at all. *)
Theorem saveToken_stops_at_first_rejection (this : Grant W)
    (user_ : option User) (client_ : Client) (authorizationCode_ : string)
    (scope_ : string) (w : W) :
  let tr := trace (saveToken this user_ client_ authorizationCode_ scope_) w in
  (exists rest, skipn 2 handle_steps = map step_of tr ++ rest) /\
  (forall ev reason,
     In ev tr ->
     rejection ev = Some reason ->
     outcome (saveToken this user_ client_ authorizationCode_ scope_) w
     = Throw (CollaboratorError reason) /\
     exists before, tr = before ++ [ev]) /\
  (forall access refresh,
     In (EvGetAccessTokenExpiresAt (Resolved access)) tr ->
     In (EvGetRefreshTokenExpiresAt (Resolved refresh)) tr ->
     (exists token res,
        In (EvSaveToken token client_ user_ res) tr /\
        Token.accessTokenExpiresAt token = access /\
        Token.refreshTokenExpiresAt token = refresh)
     \/ exists msg,
          outcome (saveToken this user_ client_ authorizationCode_ scope_) w
          = Throw (TypeError msg)).
Proof.
  intros tr. subst tr. split; [|split].
  - wp_outcome. wp_run.
    all: eexists; reflexivity.
  - intros ev reason. wp_outcome. wp_run.
    all: intros Hin Hrej; in_trace Hin; subst.
    all: cbn [rejection] in Hrej; try discriminate Hrej.
    all: injection Hrej as <-.
    all: split; [reflexivity | last_of_trace].
  - intros access refresh. wp_outcome. wp_run.
    all: intros Ha Hr; in_trace Ha; in_trace Hr.
    all: first
           [ right; eexists; reflexivity
           | left; eexists _, _;
             split; [cbn [In]; eauto 12 | split; reflexivity] ].
Qed.

End AuthorizationCodeGrantType.

(** ** Test vectors for the digest and the encoding *)

Example sha256_abc :
  Crypto.hex (Crypto.sha256 "abc")
  = "ba7816bf8f01cfea414140de5dae2223b00361a396177a9cb410ff61f20015ad"%string.
Proof. vm_compute. reflexivity. Qed.

Example sha256_empty :
  Crypto.hex (Crypto.sha256 "")
  = "e3b0c44298fc1c149afbf4c8996fb92427ae41e4649b934ca495991b7852b855"%string.
Proof. vm_compute. reflexivity. Qed.

Example sha256_two_blocks :
  Crypto.hex
    (Crypto.sha256 "abcdbcdecdefdefgefghfghighijhijkijkljklmklmnlmnomnopnopq")
  = "248d6a61d20638b8e5c026930c3e6039a33ce45964ff2167f6ecedd419db06c1"%string.
Proof. vm_compute. reflexivity. Qed.

Example base64URLEncode_lengths :
  map (fun s => StringUtil.base64URLEncode (Crypto.bytes_of_string s))
    ["f"; "fo"; "foo"; "foob"; "fooba"; "foobar"]%string
  = ["Zg"; "Zm8"; "Zm9v"; "Zm9vYg"; "Zm9vYmE"; "Zm9vYmFy"]%string.
Proof. vm_compute. reflexivity. Qed.

Example base64URLEncode_url_safe :
  StringUtil.base64URLEncode [0xfb; 0xff; 0xfe]%Z = "-__-"%string.
Proof. vm_compute. reflexivity. Qed.

Example pkce_challenge_of_verifier :
  Some (StringUtil.base64URLEncode (Crypto.sha256 "verifier-xyz"))
  = codeChallenge Sample.pkce_code.
Proof. vm_compute. reflexivity. Qed.

(** ** The grant type over the sample world *)

Abbreviation sample_getAuthorizationCode :=
  (getAuthorizationCode Sample.is_vschar Sample.is_uri Sample.date_now
     Sample.this).

Abbreviation sample_saveToken :=
  (saveToken Sample.validateScope Sample.generateAccessToken
     Sample.generateRefreshToken Sample.getAccessTokenExpiresAt
     Sample.getRefreshTokenExpiresAt Sample.this).

Abbreviation sample_handle :=
  (handle Sample.is_vschar Sample.is_uri Sample.validateScope
     Sample.generateAccessToken Sample.generateRefreshToken
     Sample.getAccessTokenExpiresAt Sample.getRefreshTokenExpiresAt
     Sample.date_now Sample.this).

Abbreviation sample_looks_up :=
  (looks_up Sample.is_vschar Sample.this).

(** The store of the sample world answers the lookup of [c]. *)
Ltac sample_lookup c :=
  exists c, Sample.memory_model, Sample.getAuthorizationCode;
  repeat split; vm_compute; reflexivity.

(** C6, on the running example: the redirect URI of the body is the one
    stored on the code; and so is the one of the query, for a request that
    has none in its body. *)
Lemma redirect_uri_match_accepted :
  truthy (redirectUri Sample.pkce_code) = true /\
  truthy (body Sample.pkce_request !! "redirect_uri") = true /\
  truthy (body Edge.request_with_query_redirect !! "redirect_uri") = false /\
  validateRedirectUri Sample.is_uri Sample.pkce_request Sample.pkce_code
  = Ok tt /\
  validateRedirectUri Sample.is_uri Edge.request_with_query_redirect
    Sample.pkce_code
  = Ok tt.
Proof.
  split; [reflexivity|]. split; [reflexivity|]. split; [reflexivity|].
  destruct (validateRedirectUri_checks_equality Sample.is_uri
              Sample.pkce_request Sample.pkce_code) as [_ Hbody].
  destruct (Hbody eq_refl) as (Hyes & _ & _).
  destruct (validateRedirectUri_checks_equality Sample.is_uri
              Edge.request_with_query_redirect Sample.pkce_code)
    as [_ Hquery].
  destruct (Hquery eq_refl) as (_ & Hfallback & _).
  split.
  - apply (Hyes eq_refl). split; vm_compute; reflexivity.
  - apply (Hfallback eq_refl). split; vm_compute; reflexivity.
Defined.

(** A complete model is accepted, and becomes [this.model]. *)
Example constructor_accepts_complete_model :
  constructor Sample.super_check Sample.options = Ok Sample.this.
Proof. reflexivity. Qed.

(** C9 as stated fails: a model whose [getAuthorizationCode] is a truthy
    value that is not a function passes the constructor, and [handle] then
    fails on the capability that cannot be called. *)
Lemma uncallable_capability_passes_constructor :
  constructor Sample.super_check Edge.options_with_uncallable_lookup
  = Ok Edge.uncallable_this /\
  outcome (handle Sample.is_vschar Sample.is_uri Sample.validateScope
             Sample.generateAccessToken Sample.generateRefreshToken
             Sample.getAccessTokenExpiresAt Sample.getRefreshTokenExpiresAt
             Sample.date_now Edge.uncallable_this
             (Some Sample.pkce_request) (Some Sample.app)) Sample.world0
  = Throw (TypeError "this.model.getAuthorizationCode is not a function") /\
  missing_capability
    (TypeError "this.model.getAuthorizationCode is not a function")
  = true.
Proof. repeat split; vm_compute; reflexivity. Qed.

(** C9, amended, on a model that cannot save tokens, and on the complete
    model of the running example, replayed. *)
Lemma constructor_rejects_incomplete_model :
  lacks_capability Sample.options_without_saveToken /\
  (exists msg,
     constructor Sample.super_check Sample.options_without_saveToken
     = Throw (InvalidArgumentError msg)) /\
  constructor Sample.super_check Sample.options = Ok Sample.this /\
  callable_model Sample.memory_model /\
  missing_capability
    (InvalidGrantError "Invalid grant: authorization code is invalid")
  = false.
Proof.
  assert (Hlacks : lacks_capability Sample.options_without_saveToken)
    by (right; right; reflexivity).
  assert (Hcallable : callable_model Sample.memory_model)
    by (do 3 eexists; repeat split; reflexivity).
  split; [exact Hlacks|].
  destruct (capabilities_checked_at_construction Sample.is_vschar
              Sample.is_uri Sample.super_check Sample.validateScope
              Sample.generateAccessToken Sample.generateRefreshToken
              Sample.getAccessTokenExpiresAt Sample.getRefreshTokenExpiresAt
              Sample.date_now Sample.options_without_saveToken) as [H _].
  destruct (H Hlacks) as (e & He & Hkind).
  destruct (Hkind eq_refl) as [_ [msg ->]].
  split; [exists msg; exact He|].
  split; [reflexivity|]. split; [exact Hcallable|].
  destruct (capabilities_checked_at_construction Sample.is_vschar
              Sample.is_uri Sample.super_check Sample.validateScope
              Sample.generateAccessToken Sample.generateRefreshToken
              Sample.getAccessTokenExpiresAt Sample.getRefreshTokenExpiresAt
              Sample.date_now Sample.options) as [_ Hbuilt].
  destruct (Hbuilt Sample.this eq_refl) as (m & Hm & _ & _ & _ & Hnever).
  injection Hm as <-.
  apply (Hnever Hcallable (Some Sample.pkce_request) (Some Sample.app)
           Sample.world1).
  vm_compute. reflexivity.
Defined.

(** C5, on the code without a challenge: a stray verifier is refused, no
    verifier is accepted. *)
Lemma stray_verifier_refused :
  sample_looks_up Sample.plain_request_with_verifier Sample.world0
    (Some Sample.plain_code) Sample.world0 /\
  sample_looks_up Sample.plain_request Sample.world0
    (Some Sample.plain_code) Sample.world0 /\
  outcome (sample_getAuthorizationCode Sample.plain_request_with_verifier
             Sample.app) Sample.world0
  = Throw (InvalidGrantError "Invalid grant: code verifier is invalid") /\
  outcome (sample_getAuthorizationCode Sample.plain_request Sample.app)
    Sample.world0
  = Ok Sample.plain_code.
Proof.
  assert (H1 : sample_looks_up Sample.plain_request_with_verifier
                 Sample.world0 (Some Sample.plain_code) Sample.world0)
    by sample_lookup "plain1"%string.
  assert (H2 : sample_looks_up Sample.plain_request Sample.world0
                 (Some Sample.plain_code) Sample.world0)
    by sample_lookup "plain1"%string.
  split; [exact H1|]. split; [exact H2|]. split.
  - apply (verifier_without_challenge Sample.is_vschar Sample.is_uri
             Sample.date_now Sample.this Sample.plain_request_with_verifier
             Sample.app Sample.world0 Sample.world0 Sample.world0
             Sample.plain_code 1000 H1 eq_refl eq_refl);
      vm_compute; reflexivity.
  - apply (verifier_without_challenge Sample.is_vschar Sample.is_uri
             Sample.date_now Sample.this Sample.plain_request
             Sample.app Sample.world0 Sample.world0 Sample.world0
             Sample.plain_code 1000 H2 eq_refl eq_refl);
      vm_compute; reflexivity.
Defined.

(** C3, on the running example: the verifier ["verifier-xyz"] proves the
    challenge of the code ["abc123"]. *)
Lemma pkce_scenario_accepted :
  sample_looks_up Sample.pkce_request Sample.world0
    (Some Sample.pkce_code) Sample.world0 /\
  valid_at Sample.is_uri Sample.pkce_code Sample.app 1000 = true /\
  outcome (sample_getAuthorizationCode Sample.pkce_request Sample.app)
    Sample.world0
  = Ok Sample.pkce_code.
Proof.
  assert (H : sample_looks_up Sample.pkce_request Sample.world0
                (Some Sample.pkce_code) Sample.world0)
    by sample_lookup "abc123"%string.
  split; [exact H|]. split; [vm_compute; reflexivity|].
  apply (s256_challenge_verification Sample.is_vschar Sample.is_uri
           Sample.date_now Sample.this Sample.pkce_request Sample.app
           Sample.world0 Sample.world0 Sample.world0 Sample.pkce_code 1000
           "verifier-xyz" H);
    vm_compute; reflexivity.
Defined.

(** A Date that holds NaN is before no instant. *)
Example invalid_date_never_expires (t : Z) :
  js_lt (getTime InvalidDate) t = false.
Proof. reflexivity. Qed.

(** C2 as stated fails: a code that expires at the very instant of the lookup
    is returned, not refused. *)
Lemma expiry_at_current_instant_accepted :
  sample_looks_up (Sample.request_for "edge42") Sample.world0
    (Some Sample.edge_code) Sample.world0 /\
  Sample.date_now Sample.world0 = (1000%Z, Sample.world0) /\
  expiresAt Sample.edge_code = DateAt 1000 /\
  outcome (sample_getAuthorizationCode (Sample.request_for "edge42")
             Sample.app) Sample.world0
  = Ok Sample.edge_code /\
  forall msg,
    outcome (sample_getAuthorizationCode (Sample.request_for "edge42")
               Sample.app) Sample.world0
    <> Throw (InvalidGrantError msg).
Proof.
  split; [sample_lookup "edge42"%string|].
  repeat split; try (vm_compute; reflexivity).
  intros msg. vm_compute. discriminate.
Qed.

(** C2, amended, on the code that expired before the lookup. *)
Lemma expired_code_scenario :
  sample_looks_up (Sample.request_for "old777") Sample.world0
    (Some Sample.expired_code) Sample.world0 /\
  (500 < 1000)%Z /\
  outcome (sample_getAuthorizationCode (Sample.request_for "old777")
             Sample.app) Sample.world0
  = Throw (InvalidGrantError "Invalid grant: authorization code has expired").
Proof.
  assert (H : sample_looks_up (Sample.request_for "old777") Sample.world0
                (Some Sample.expired_code) Sample.world0)
    by sample_lookup "old777"%string.
  split; [exact H|]. split; [lia|].
  apply (expired_code_rejected Sample.is_vschar Sample.is_uri Sample.date_now
           Sample.this (Sample.request_for "old777") Sample.app
           Sample.world0 Sample.world0 Sample.world0 Sample.expired_code
           1000 500 H eq_refl eq_refl eq_refl);
    [lia | reflexivity].
Defined.

(** C4 as stated fails: an unknown code and an expired code are refused with
    different messages. *)
Lemma expired_refusal_is_distinguishable :
  refused Sample.is_vschar Sample.date_now Nonexistent Sample.this
    (Sample.request_for "nope") Sample.app Sample.world0 /\
  refused Sample.is_vschar Sample.date_now Expired Sample.this
    (Sample.request_for "old777") Sample.app Sample.world0 /\
  outcome (sample_getAuthorizationCode (Sample.request_for "nope")
             Sample.app) Sample.world0
  = Throw (InvalidGrantError "Invalid grant: authorization code is invalid") /\
  outcome (sample_getAuthorizationCode (Sample.request_for "old777")
             Sample.app) Sample.world0
  = Throw (InvalidGrantError "Invalid grant: authorization code has expired") /\
  outcome (sample_getAuthorizationCode (Sample.request_for "nope")
             Sample.app) Sample.world0
  <> outcome (sample_getAuthorizationCode (Sample.request_for "old777")
                Sample.app) Sample.world0.
Proof.
  split.
  { exists Sample.world0. sample_lookup "nope"%string. }
  split.
  { exists Sample.expired_code, Sample.world0, 1000%Z, Sample.world0, 500%Z.
    split; [sample_lookup "old777"%string|].
    repeat split; vm_compute; reflexivity. }
  repeat split; vm_compute; try reflexivity. discriminate.
Qed.

(** C4, amended, on an unknown code and a code presented by another client:
    the two refusals are the same error. *)
Lemma unknown_and_foreign_codes_alike :
  refused Sample.is_vschar Sample.date_now Nonexistent Sample.this
    (Sample.request_for "nope") Sample.app Sample.world0 /\
  refused Sample.is_vschar Sample.date_now WrongClient Sample.this
    Sample.plain_request Sample.other_app Sample.world0 /\
  outcome (sample_getAuthorizationCode (Sample.request_for "nope")
             Sample.app) Sample.world0
  = outcome (sample_getAuthorizationCode Sample.plain_request
               Sample.other_app) Sample.world0.
Proof.
  assert (H1 : refused Sample.is_vschar Sample.date_now Nonexistent
                 Sample.this (Sample.request_for "nope") Sample.app
                 Sample.world0).
  { exists Sample.world0. sample_lookup "nope"%string. }
  assert (H2 : refused Sample.is_vschar Sample.date_now WrongClient
                 Sample.this Sample.plain_request Sample.other_app
                 Sample.world0).
  { exists Sample.plain_code, Sample.world0.
    split; [sample_lookup "plain1"%string|].
    split; vm_compute; reflexivity. }
  split; [exact H1|]. split; [exact H2|].
  destruct (refusals_share_kind Sample.is_vschar Sample.is_uri
              Sample.date_now Nonexistent WrongClient Sample.this Sample.this
              (Sample.request_for "nope") Sample.plain_request
              Sample.app Sample.other_app Sample.world0 Sample.world0 H1 H2)
    as (msg1 & msg2 & -> & -> & Hsame).
  f_equal. f_equal. apply Hsame. reflexivity.
Defined.

(** C7 as stated fails: a record whose expiry is not a Date, presented by a
    client it is not bound to, is refused as an invalid grant, not as a
    server error. *)
Lemma invalid_record_without_server_error :
  sample_looks_up (Sample.request_for "bad999") Sample.world0
    (Some Sample.undated_code) Sample.world0 /\
  structurally_invalid Sample.undated_code = true /\
  outcome (sample_getAuthorizationCode (Sample.request_for "bad999")
             Sample.other_app) Sample.world0
  = Throw (InvalidGrantError "Invalid grant: authorization code is invalid") /\
  forall msg,
    outcome (sample_getAuthorizationCode (Sample.request_for "bad999")
               Sample.other_app) Sample.world0
    <> Throw (ServerError msg).
Proof.
  split; [sample_lookup "bad999"%string|].
  repeat split; try (vm_compute; reflexivity).
  intros msg. vm_compute. discriminate.
Qed.

(** C7, amended, on a record without a client. *)
Lemma orphan_record_is_server_error :
  sample_looks_up (Sample.request_for "orphan") Sample.world0
    (Some Sample.orphan_code) Sample.world0 /\
  client Sample.orphan_code = None /\
  exists msg,
    outcome (sample_getAuthorizationCode (Sample.request_for "orphan")
               Sample.app) Sample.world0
    = Throw (ServerError msg).
Proof.
  assert (H : sample_looks_up (Sample.request_for "orphan") Sample.world0
                (Some Sample.orphan_code) Sample.world0)
    by sample_lookup "orphan"%string.
  split; [exact H|]. split; [reflexivity|].
  destruct (server_error_only_for_invalid_records Sample.is_vschar
              Sample.is_uri Sample.date_now Sample.this
              (Sample.request_for "orphan") Sample.app Sample.world0)
    as [_ Hfirst].
  destruct (Hfirst Sample.orphan_code Sample.world0 H) as [Hclient _].
  exact (Hclient eq_refl).
Defined.

(** The token that the running example ends with. *)
Example pkce_scenario_outcome :
  outcome (sample_handle (Some Sample.pkce_request) (Some Sample.app))
    Sample.world0
  = Ok (Token.mk "access:read write" "abc123" 3601000 "refresh:read write"
          1209601000 "read").
Proof. vm_compute. reflexivity. Qed.

(** C8, on the running example: the saved token refers to ["abc123"]. *)
Lemma pkce_scenario_token :
  exists req cl c code resolved token rest,
    Some Sample.pkce_request = Some req /\ Some Sample.app = Some cl /\
    trace (sample_handle (Some Sample.pkce_request) (Some Sample.app))
      Sample.world0
    = EvGetAuthorizationCode c (Resolved (Some code))
      :: EvRevokeAuthorizationCode code (Resolved true)
      :: EvValidateScope (user code) cl (scope code) (Resolved resolved)
      :: rest
         ++ [EvSaveToken token cl (user code)
               (Resolved
                  (Token.mk "access:read write" "abc123" 3601000
                     "refresh:read write" 1209601000 "read"))] /\
    Token.authorizationCode token = authorizationCode code /\
    Token.scope token = resolved.
Proof.
  apply (saved_token_refers_to_code Sample.is_vschar Sample.is_uri
           Sample.validateScope Sample.generateAccessToken
           Sample.generateRefreshToken Sample.getAccessTokenExpiresAt
           Sample.getRefreshTokenExpiresAt Sample.date_now Sample.this
           (Some Sample.pkce_request) (Some Sample.app) Sample.world0).
  vm_compute. reflexivity.
Defined.

(** C1, on a replay of the running example: the code has been consumed, the
    revocation fails, and nothing is generated or saved. *)
Lemma replay_refused :
  In (EvRevokeAuthorizationCode Sample.pkce_code (Resolved false))
    (trace (sample_handle (Some Sample.pkce_request) (Some Sample.app))
       Sample.world1) /\
  outcome (sample_handle (Some Sample.pkce_request) (Some Sample.app))
    Sample.world1
  = Throw (InvalidGrantError "Invalid grant: authorization code is invalid") /\
  forallb (fun ev => negb (issues_token ev))
    (trace (sample_handle (Some Sample.pkce_request) (Some Sample.app))
       Sample.world1)
  = true.
Proof.
  assert (H : In (EvRevokeAuthorizationCode Sample.pkce_code (Resolved false))
                (trace (sample_handle (Some Sample.pkce_request)
                          (Some Sample.app)) Sample.world1))
    by (vm_compute; right; left; reflexivity).
  split; [exact H|].
  destruct (code_revoked_before_token_saved Sample.is_vschar Sample.is_uri
              Sample.validateScope Sample.generateAccessToken
              Sample.generateRefreshToken Sample.getAccessTokenExpiresAt
              Sample.getRefreshTokenExpiresAt Sample.date_now Sample.this
              (Some Sample.pkce_request) (Some Sample.app) Sample.world1)
    as (_ & _ & Hfalsy).
  exact (Hfalsy Sample.pkce_code H).
Defined.

(** C10, on the running example: the policy narrows ["read write"] to
    ["read"], and the generators still receive ["read write"]. *)
Lemma generators_see_requested_scope :
  exists resolved accessToken refreshToken accessExpiry refreshExpiry,
    trace (sample_saveToken (Some Sample.alice) Sample.app "abc123"
             "read write") Sample.world0
    = [ EvValidateScope (Some Sample.alice) Sample.app "read write"
          (Resolved resolved);
        EvGenerateAccessToken Sample.app (Some Sample.alice) "read write"
          (Resolved accessToken);
        EvGenerateRefreshToken Sample.app (Some Sample.alice) "read write"
          (Resolved refreshToken);
        EvGetAccessTokenExpiresAt (Resolved accessExpiry);
        EvGetRefreshTokenExpiresAt (Resolved refreshExpiry);
        EvSaveToken
          (Token.mk accessToken "abc123" accessExpiry refreshToken
             refreshExpiry resolved)
          Sample.app (Some Sample.alice)
          (Resolved
             (Token.mk "access:read write" "abc123" 3601000
                "refresh:read write" 1209601000 "read")) ].
Proof.
  destruct (generators_receive_requested_scope Sample.validateScope
              Sample.generateAccessToken Sample.generateRefreshToken
              Sample.getAccessTokenExpiresAt Sample.getRefreshTokenExpiresAt
              Sample.this (Some Sample.alice) Sample.app "abc123"
              "read write" Sample.world0)
    as (_ & _ & Hok).
  apply Hok. vm_compute. reflexivity.
Defined.

(** The scope on the saved token is the narrowed one. *)
Example narrowed_scope_on_token :
  Token.scope <$> Sample.tokens
    (world (snd (exec (sample_saveToken (Some Sample.alice) Sample.app
                         "abc123" "read write") Sample.world0)))
  = ["read"%string].
Proof. vm_compute. reflexivity. Qed.

(** A code is usable once: the world that the running example leaves behind
    refuses the same request. *)
Example code_is_single_use :
  outcome (sample_handle (Some Sample.pkce_request) (Some Sample.app))
    (world (snd (exec (sample_handle (Some Sample.pkce_request)
                         (Some Sample.app)) Sample.world0)))
  = Throw (InvalidGrantError "Invalid grant: authorization code is invalid").
Proof. vm_compute. reflexivity. Qed.

(** ** The further properties on concrete runs *)

Abbreviation starved_handle :=
  (handle Sample.is_vschar Sample.is_uri Sample.validateScope
     Edge.failing_generateAccessToken Sample.generateRefreshToken
     Sample.getAccessTokenExpiresAt Sample.getRefreshTokenExpiresAt
     Sample.date_now Sample.this).

Abbreviation starved_saveToken :=
  (saveToken Sample.validateScope Edge.failing_generateAccessToken
     Sample.generateRefreshToken Sample.getAccessTokenExpiresAt
     Sample.getRefreshTokenExpiresAt Sample.this).

Abbreviation promising_handle :=
  (handle Sample.is_vschar Sample.is_uri Sample.validateScope
     Sample.generateAccessToken Sample.generateRefreshToken
     Edge.promising_getAccessTokenExpiresAt Sample.getRefreshTokenExpiresAt
     Sample.date_now Sample.this).

Abbreviation promising_saveToken :=
  (saveToken Sample.validateScope Sample.generateAccessToken
     Sample.generateRefreshToken Edge.promising_getAccessTokenExpiresAt
     Sample.getRefreshTokenExpiresAt Sample.this).

Abbreviation throwing_saveToken :=
  (saveToken Sample.validateScope Sample.generateAccessToken
     Sample.generateRefreshToken Edge.throwing_getAccessTokenExpiresAt
     Sample.getRefreshTokenExpiresAt Sample.this).

(** X1, on a request without a code and on one with a control character. *)
Lemma malformed_requests_refused :
  truthy (body Edge.empty_request !! "code") = false /\
  Sample.is_vschar (String (ascii_of_nat 7) "abc") = false /\
  exec (sample_getAuthorizationCode Edge.empty_request Sample.app)
    Sample.world0
  = (Throw (InvalidRequestError "Missing parameter: `code`"),
     {| world := Sample.world0; log := [] |}) /\
  exec (sample_getAuthorizationCode Edge.request_with_control_char Sample.app)
    Sample.world0
  = (Throw (InvalidRequestError "Invalid parameter: `code`"),
     {| world := Sample.world0; log := [] |}).
Proof.
  split; [reflexivity|]. split; [reflexivity|].
  destruct (malformed_code_never_reaches_store Sample.is_vschar Sample.is_uri
              Sample.date_now Sample.this Edge.empty_request Sample.app
              Sample.world0) as [Hmissing _].
  destruct (malformed_code_never_reaches_store Sample.is_vschar Sample.is_uri
              Sample.date_now Sample.this Edge.request_with_control_char
              Sample.app Sample.world0) as (_ & Hinvalid & _).
  split.
  - apply Hmissing. reflexivity.
  - apply (Hinvalid (String (ascii_of_nat 7) "abc"));
      vm_compute; reflexivity.
Defined.

(** X2, on the running example. *)
Lemma running_example_lookup :
  exists c res,
    trace (sample_getAuthorizationCode Sample.pkce_request Sample.app)
      Sample.world0
    = [EvGetAuthorizationCode c res] /\
    truthy_string (body Sample.pkce_request !! "code") = Some c /\
    Sample.is_vschar c = true.
Proof.
  destruct (lookup_uses_request_code Sample.is_vschar Sample.is_uri
              Sample.date_now Sample.this Sample.pkce_request Sample.app
              Sample.world0) as [Hnone | Hone].
  - vm_compute in Hnone. discriminate Hnone.
  - exact Hone.
Defined.

(** X3, on a code with a plain challenge. *)
Lemma plain_challenge_accepted :
  sample_looks_up Edge.plain_pkce_request Edge.world
    (Some Edge.plain_pkce_code) Edge.world /\
  valid_at Sample.is_uri Edge.plain_pkce_code Sample.app 1000 = true /\
  outcome (sample_getAuthorizationCode Edge.plain_pkce_request Sample.app)
    Edge.world
  = Ok Edge.plain_pkce_code.
Proof.
  assert (H : sample_looks_up Edge.plain_pkce_request Edge.world
                (Some Edge.plain_pkce_code) Edge.world)
    by sample_lookup "pln456"%string.
  split; [exact H|]. split; [vm_compute; reflexivity|].
  apply (plain_challenge_verification Sample.is_vschar Sample.is_uri
           Sample.date_now Sample.this Edge.plain_pkce_request Sample.app
           Edge.world Edge.world Edge.world Edge.plain_pkce_code 1000
           "verifier-xyz" H);
    vm_compute; reflexivity.
Defined.

(** X4, on the running example without its verifier. *)
Lemma missing_verifier_refused :
  sample_looks_up Edge.request_without_verifier Sample.world0
    (Some Sample.pkce_code) Sample.world0 /\
  truthy (body Edge.request_without_verifier !! "code_verifier") = false /\
  outcome (sample_getAuthorizationCode Edge.request_without_verifier
             Sample.app) Sample.world0
  = Throw (InvalidGrantError "Missing parameter: `code_verifier`").
Proof.
  assert (H : sample_looks_up Edge.request_without_verifier Sample.world0
                (Some Sample.pkce_code) Sample.world0)
    by sample_lookup "abc123"%string.
  split; [exact H|]. split; [reflexivity|].
  apply (challenge_requires_verifier Sample.is_vschar Sample.is_uri
           Sample.date_now Sample.this Edge.request_without_verifier
           Sample.app Sample.world0 Sample.world0 Sample.world0
           Sample.pkce_code 1000 H);
    vm_compute; reflexivity.
Defined.

(** X5, on a record whose stored redirect URI has no scheme. *)
Lemma relative_redirect_uri_refused :
  sample_looks_up (Sample.request_for "rel111") Edge.world
    (Some Edge.relative_code) Edge.world /\
  Sample.is_uri (redirectUri Edge.relative_code) = false /\
  outcome (sample_getAuthorizationCode (Sample.request_for "rel111")
             Sample.app) Edge.world
  = Throw (InvalidGrantError
             "Invalid grant: `redirect_uri` is not a valid URI").
Proof.
  assert (H : sample_looks_up (Sample.request_for "rel111") Edge.world
                (Some Edge.relative_code) Edge.world)
    by sample_lookup "rel111"%string.
  split; [exact H|]. split; [reflexivity|].
  apply (stored_redirect_uri_must_be_valid Sample.is_vschar Sample.is_uri
           Sample.date_now Sample.this (Sample.request_for "rel111")
           Sample.app Edge.world Edge.world Edge.world Edge.relative_code
           1000 H);
    vm_compute; reflexivity.
Defined.

(** X6, on a record whose expiry is a Date holding NaN. *)
Lemma nan_expiry_accepted :
  sample_looks_up (Sample.request_for "nan000") Edge.world
    (Some Edge.nan_code) Edge.world /\
  expiresAt Edge.nan_code = InvalidDate /\
  outcome (sample_getAuthorizationCode (Sample.request_for "nan000")
             Sample.app) Edge.world
  = Ok Edge.nan_code.
Proof.
  assert (H : sample_looks_up (Sample.request_for "nan000") Edge.world
                (Some Edge.nan_code) Edge.world)
    by sample_lookup "nan000"%string.
  split; [exact H|]. split; [reflexivity|].
  apply (nan_expiry_never_expires Sample.is_vschar Sample.is_uri
           Sample.date_now Sample.this (Sample.request_for "nan000")
           Sample.app Edge.world Edge.world Edge.world Edge.nan_code
           1000 H);
    vm_compute; reflexivity.
Defined.

(** X7, on the running example: what its success implies. *)
Lemma running_example_is_valid :
  outcome (sample_getAuthorizationCode Sample.pkce_request Sample.app)
    Sample.world0
  = Ok Sample.pkce_code /\
  exists w1 t w2,
    sample_looks_up Sample.pkce_request Sample.world0
      (Some Sample.pkce_code) w1 /\
    Sample.date_now w1 = (t, w2) /\
    valid_at Sample.is_uri Sample.pkce_code Sample.app t = true /\
    pkce_proved Sample.pkce_code Sample.pkce_request.
Proof.
  assert (H : outcome (sample_getAuthorizationCode Sample.pkce_request
                         Sample.app) Sample.world0
              = Ok Sample.pkce_code)
    by (vm_compute; reflexivity).
  split; [exact H|].
  apply (returned_record_is_valid Sample.is_vschar Sample.is_uri
           Sample.date_now Sample.this Sample.pkce_request Sample.app
           Sample.world0 Sample.pkce_code).
  exact H.
Defined.

(** X8, on the running example: a stray redirect URI in the query changes
    nothing, and a redirect URI given in the query only is used. *)
Lemma query_redirect_uri_ignored :
  truthy (body Sample.pkce_request !! "redirect_uri") = true /\
  validateRedirectUri Sample.is_uri Edge.request_with_both_redirects
    Sample.pkce_code
  = validateRedirectUri Sample.is_uri Sample.pkce_request Sample.pkce_code.
Proof.
  split; [reflexivity|].
  destruct (body_redirect_uri_preferred Sample.is_uri Sample.pkce_request
              Edge.request_with_both_redirects Sample.pkce_code)
    as [Hbody _].
  apply Hbody; reflexivity.
Defined.

Example query_redirect_uri_used :
  validateRedirectUri Sample.is_uri Edge.request_with_query_redirect
    Sample.pkce_code
  = Ok tt.
Proof. vm_compute. reflexivity. Qed.

(** X9, on a model that can only save tokens: the error is about the
    lookup. *)
Lemma first_missing_capability_named :
  Sample.super_check Edge.options_with_saveToken_only = None /\
  constructor Sample.super_check Edge.options_with_saveToken_only
  = Throw (InvalidArgumentError
      "Invalid argument: model does not implement `getAuthorizationCode()`").
Proof.
  split; [reflexivity|].
  destruct (constructor_succeeds_iff Sample.super_check
              Edge.options_with_saveToken_only Sample.this) as [_ Hfirst].
  destruct (Hfirst (Model.mk None None (Some (Callable Sample.saveToken)))
              eq_refl eq_refl) as [Hget _].
  apply Hget. reflexivity.
Defined.

(** X10, on a call without a request and without a client. *)
Lemma request_checked_before_client :
  outcome (sample_handle None None) Sample.world0
  = Throw (InvalidArgumentError "Missing parameter: `request`").
Proof.
  apply (handle_argument_errors Sample.is_vschar Sample.is_uri
           Sample.validateScope Sample.generateAccessToken
           Sample.generateRefreshToken Sample.getAccessTokenExpiresAt
           Sample.getRefreshTokenExpiresAt Sample.date_now Sample.this
           None None Sample.world0).
  left. split; reflexivity.
Defined.

(** X12, on the running example with another redirect URI: the request is
    refused and the code is left for a correct request. *)
Lemma wrong_redirect_keeps_code :
  outcome (sample_getAuthorizationCode Edge.request_with_other_redirect
             Sample.app) Sample.world0
  = Ok Sample.pkce_code /\
  validateRedirectUri Sample.is_uri Edge.request_with_other_redirect
    Sample.pkce_code
  = Throw (InvalidRequestError "Invalid request: `redirect_uri` is invalid") /\
  outcome (sample_handle (Some Edge.request_with_other_redirect)
             (Some Sample.app)) Sample.world0
  = Throw (InvalidRequestError "Invalid request: `redirect_uri` is invalid") /\
  trace (sample_handle (Some Edge.request_with_other_redirect)
           (Some Sample.app)) Sample.world0
  = trace (sample_getAuthorizationCode Edge.request_with_other_redirect
             Sample.app) Sample.world0.
Proof.
  assert (H1 : outcome (sample_getAuthorizationCode
                          Edge.request_with_other_redirect Sample.app)
                 Sample.world0
               = Ok Sample.pkce_code)
    by (vm_compute; reflexivity).
  assert (H2 : validateRedirectUri Sample.is_uri
                 Edge.request_with_other_redirect Sample.pkce_code
               = Throw (InvalidRequestError
                          "Invalid request: `redirect_uri` is invalid"))
    by (vm_compute; reflexivity).
  split; [exact H1|]. split; [exact H2|].
  exact (failed_redirect_check_keeps_code Sample.is_vschar Sample.is_uri
           Sample.validateScope Sample.generateAccessToken
           Sample.generateRefreshToken Sample.getAccessTokenExpiresAt
           Sample.getRefreshTokenExpiresAt Sample.date_now Sample.this
           Edge.request_with_other_redirect Sample.app Sample.world0
           Sample.pkce_code _ H1 H2).
Defined.

(** X11, on the same request. *)
Lemma refused_request_consumes_nothing :
  outcome (sample_handle (Some Edge.request_with_other_redirect)
             (Some Sample.app)) Sample.world0
  = Throw (InvalidRequestError "Invalid request: `redirect_uri` is invalid") /\
  (forall code,
     ~ In (EvRevokeAuthorizationCode code (Resolved true))
         (trace (sample_handle (Some Edge.request_with_other_redirect)
                   (Some Sample.app)) Sample.world0)) /\
  forallb (fun ev => negb (issues_token ev))
    (trace (sample_handle (Some Edge.request_with_other_redirect)
              (Some Sample.app)) Sample.world0)
  = true.
Proof.
  assert (H : outcome (sample_handle (Some Edge.request_with_other_redirect)
                         (Some Sample.app)) Sample.world0
              = Throw (InvalidRequestError
                         "Invalid request: `redirect_uri` is invalid"))
    by (vm_compute; reflexivity).
  split; [exact H|].
  exact (own_errors_leave_code_unconsumed Sample.is_vschar Sample.is_uri
           Sample.validateScope Sample.generateAccessToken
           Sample.generateRefreshToken Sample.getAccessTokenExpiresAt
           Sample.getRefreshTokenExpiresAt Sample.date_now Sample.this
           (Some Edge.request_with_other_redirect) (Some Sample.app)
           Sample.world0 _ H eq_refl).
Defined.

(** X14, on the running example with a generator that rejects: the run
    stops there, after the code has been revoked; and with an access expiry
    getter that hands back a promise that rejects: the run goes on. *)
Lemma starved_generator_ends_run :
  In (EvGenerateAccessToken Sample.app (Some Sample.alice) "read write"
        (Rejected "no entropy"))
    (trace (starved_handle (Some Sample.pkce_request) (Some Sample.app))
       Sample.world0) /\
  outcome (starved_handle (Some Sample.pkce_request) (Some Sample.app))
    Sample.world0
  = Throw (CollaboratorError "no entropy") /\
  (exists before,
     trace (starved_handle (Some Sample.pkce_request) (Some Sample.app))
       Sample.world0
     = before
       ++ [EvGenerateAccessToken Sample.app (Some Sample.alice) "read write"
             (Rejected "no entropy")]) /\
  In (EvGetAccessTokenExpiresAt
        (Resolved (StampPromise (Rejected "clock down"))))
    (trace (promising_handle (Some Sample.pkce_request) (Some Sample.app))
       Sample.world0) /\
  exists res,
    In (EvGetRefreshTokenExpiresAt res)
      (trace (promising_handle (Some Sample.pkce_request) (Some Sample.app))
         Sample.world0).
Proof.
  assert (H : In (EvGenerateAccessToken Sample.app (Some Sample.alice)
                    "read write" (Rejected "no entropy"))
                (trace (starved_handle (Some Sample.pkce_request)
                          (Some Sample.app)) Sample.world0))
    by (vm_compute; do 3 right; left; reflexivity).
  assert (H' : In (EvGetAccessTokenExpiresAt
                     (Resolved (StampPromise (Rejected "clock down"))))
                 (trace (promising_handle (Some Sample.pkce_request)
                           (Some Sample.app)) Sample.world0))
    by (vm_compute; do 5 right; left; reflexivity).
  destruct (rejection_ends_handle Sample.is_vschar Sample.is_uri
              Sample.validateScope Edge.failing_generateAccessToken
              Sample.generateRefreshToken Sample.getAccessTokenExpiresAt
              Sample.getRefreshTokenExpiresAt Sample.date_now Sample.this
              (Some Sample.pkce_request) (Some Sample.app) Sample.world0)
    as (Hends & _ & _).
  destruct (rejection_ends_handle Sample.is_vschar Sample.is_uri
              Sample.validateScope Sample.generateAccessToken
              Sample.generateRefreshToken
              Edge.promising_getAccessTokenExpiresAt
              Sample.getRefreshTokenExpiresAt Sample.date_now Sample.this
              (Some Sample.pkce_request) (Some Sample.app) Sample.world0)
    as (_ & Hgoes_on & _).
  split; [exact H|].
  destruct (Hends _ "no entropy" H eq_refl) as [Hout Hlast].
  split; [exact Hout|]. split; [exact Hlast|].
  split; [exact H'|].
  exact (Hgoes_on _ H').
Defined.

(** A promise that rejects, handed back by the access expiry getter, ends up
    in the saved token. *)
Example unawaited_promise_is_saved :
  outcome (promising_handle (Some Sample.pkce_request) (Some Sample.app))
    Sample.world0
  = Ok (Token.mk "access:read write" "abc123"
          (StampPromise (Rejected "clock down")) "refresh:read write"
          1209601000 "read").
Proof. vm_compute. reflexivity. Qed.

(** The revocation before the rejection stays: the code is consumed. *)
Example starved_run_has_consumed_code :
  Sample.consumed
    (world (snd (exec (starved_handle (Some Sample.pkce_request)
                         (Some Sample.app)) Sample.world0)))
  = {["abc123"%string]}.
Proof. vm_compute. reflexivity. Qed.

(** X15, under [saveToken]: a generator that rejects and an expiry getter
    that throws end the run; an expiry getter that hands back a promise that
    rejects does not, and the promise is saved. *)
Lemma starved_saveToken_stops :
  In (EvGenerateAccessToken Sample.app (Some Sample.alice) "read write"
        (Rejected "no entropy"))
    (trace (starved_saveToken (Some Sample.alice) Sample.app "abc123"
              "read write") Sample.world0) /\
  outcome (starved_saveToken (Some Sample.alice) Sample.app "abc123"
             "read write") Sample.world0
  = Throw (CollaboratorError "no entropy") /\
  outcome (throwing_saveToken (Some Sample.alice) Sample.app "abc123"
             "read write") Sample.world0
  = Throw (CollaboratorError "clock down") /\
  exists token res,
    In (EvSaveToken token Sample.app (Some Sample.alice) res)
      (trace (promising_saveToken (Some Sample.alice) Sample.app "abc123"
                "read write") Sample.world0) /\
    Token.accessTokenExpiresAt token = StampPromise (Rejected "clock down") /\
    Token.refreshTokenExpiresAt token = StampAt 1209601000.
Proof.
  assert (H : In (EvGenerateAccessToken Sample.app (Some Sample.alice)
                    "read write" (Rejected "no entropy"))
                (trace (starved_saveToken (Some Sample.alice) Sample.app
                          "abc123" "read write") Sample.world0))
    by (vm_compute; right; left; reflexivity).
  assert (Hthrow : In (EvGetAccessTokenExpiresAt (Rejected "clock down"))
                     (trace (throwing_saveToken (Some Sample.alice)
                               Sample.app "abc123" "read write")
                        Sample.world0))
    by (vm_compute; do 3 right; left; reflexivity).
  assert (Ha : In (EvGetAccessTokenExpiresAt
                     (Resolved (StampPromise (Rejected "clock down"))))
                 (trace (promising_saveToken (Some Sample.alice) Sample.app
                           "abc123" "read write") Sample.world0))
    by (vm_compute; do 3 right; left; reflexivity).
  assert (Hr : In (EvGetRefreshTokenExpiresAt (Resolved (StampAt 1209601000)))
                 (trace (promising_saveToken (Some Sample.alice) Sample.app
                           "abc123" "read write") Sample.world0))
    by (vm_compute; do 4 right; left; reflexivity).
  destruct (saveToken_stops_at_first_rejection Sample.validateScope
              Edge.failing_generateAccessToken Sample.generateRefreshToken
              Sample.getAccessTokenExpiresAt Sample.getRefreshTokenExpiresAt
              Sample.this (Some Sample.alice) Sample.app "abc123"
              "read write" Sample.world0) as (_ & Hstop & _).
  destruct (saveToken_stops_at_first_rejection Sample.validateScope
              Sample.generateAccessToken Sample.generateRefreshToken
              Edge.throwing_getAccessTokenExpiresAt
              Sample.getRefreshTokenExpiresAt
              Sample.this (Some Sample.alice) Sample.app "abc123"
              "read write" Sample.world0) as (_ & Hthrows & _).
  destruct (saveToken_stops_at_first_rejection Sample.validateScope
              Sample.generateAccessToken Sample.generateRefreshToken
              Edge.promising_getAccessTokenExpiresAt
              Sample.getRefreshTokenExpiresAt
              Sample.this (Some Sample.alice) Sample.app "abc123"
              "read write" Sample.world0) as (_ & _ & Hsaved).
  split; [exact H|].
  split; [exact (proj1 (Hstop _ "no entropy" H eq_refl))|].
  split; [exact (proj1 (Hthrows _ "clock down" Hthrow eq_refl))|].
  destruct (Hsaved _ _ Ha Hr) as [Hdone | [msg Hmsg]].
  - exact Hdone.
  - vm_compute in Hmsg. discriminate Hmsg.
Defined.
